(** * superconfig-ffi reference benchmarks: statistics, ranking and report

    A shallow embedding of the Python benchmark scripts
    [reference/benchmark_python.py] and [reference/simple_python_benchmark.py].

    Conventions of the embedding.
    - A Python [int] is a [Z].  A Python number that may be a [float] is the
      exact rational it denotes ([Q]); the rounding of binary64 arithmetic
      is not modelled.  The functions of the [statistics] module compute on
      exact fractions, so [mean], [median] and the variance under [stdev]
      are the exact values.  The one place where rounding could change an
      integer, the index [int(n * 0.95)], is compared with its IEEE 754
      evaluation ([binary64]) for the list lengths up to 5000.
    - The square root taken by [statistics.stdev] is kept symbolic: a
      standard deviation is carried as the radicand of its root ([Surd]).
    - A Python exception is a [Raise] result; [None] is [None].
    - [list.sort] is stable; it is modelled by a stable insertion sort.
    - Lists that are mutated live in a store ([Heap]); a function that
      mutates takes the store and the address of its argument.
    - Printed lines are kept as data ([Line]): the numbers a line shows,
      not their rendering.  The two speed lines of the simple benchmark
      are the exception: their [:.0f] rounding changes what a reader
      sees, and it is modelled ([format_0f]). *)

From Stdlib Require Import List ZArith QArith Qround Lqa Lia Bool.
From Stdlib Require Import Permutation Sorted String Ascii.
From Stdlib Require Import Floats.SpecFloat.
Import ListNotations.

Open Scope Q_scope.

(** ** Python results and exceptions *)

Inductive PyError : Type :=
| ValueError
| IndexError
| KeyError
| TypeError
| StatisticsError
| ZeroDivisionError.

Inductive Res (A : Type) : Type :=
| Ok (a : A)
| Raise (e : PyError).

Arguments Ok {A} a.
Arguments Raise {A} e.

Definition bind {A B : Type} (r : Res A) (k : A -> Res B) : Res B :=
  match r with
  | Ok a => k a
  | Raise e => Raise e
  end.

Notation "x <- r ;; k" := (bind r (fun x => k))
  (at level 61, r at next level, right associativity).

(** ** Python built-ins used by the scripts *)

Module Py.

(** [int(x)] on a float: truncation towards zero. *)
Definition int (x : Q) : Z := Z.quot (Qnum x) (Zpos (Qden x)).

(** [len(l)] *)
Definition len {A : Type} (l : list A) : Z := Z.of_nat (List.length l).

(** [l[i]]: a negative index counts from the end, anything else out of
    range raises [IndexError]. *)
Definition getitem {A : Type} (l : list A) (i : Z) : Res A :=
  let j := if (i <? 0)%Z then (len l + i)%Z else i in
  if (j <? 0)%Z then Raise IndexError
  else match nth_error l (Z.to_nat j) with
       | Some v => Ok v
       | None => Raise IndexError
       end.

(** [x / y] *)
Definition truediv (x y : Q) : Res Q :=
  if Qeq_bool y 0 then Raise ZeroDivisionError else Ok (x / y).

(** [x < y] *)
Definition ltb (x y : Q) : bool := negb (Qle_bool y x).

(** [min(l)] and [max(l)]: the first smallest (largest) item;
    [ValueError] on an empty list. *)
Definition min (l : list Q) : Res Q :=
  match l with
  | [] => Raise ValueError
  | x :: r => Ok (fold_left (fun m y => if ltb y m then y else m) r x)
  end.

Definition max (l : list Q) : Res Q :=
  match l with
  | [] => Raise ValueError
  | x :: r => Ok (fold_left (fun m y => if ltb m y then y else m) r x)
  end.

(** [min(a, b, c)] *)
Definition min3 (a b c : Q) : Q :=
  let m := if ltb b a then b else a in
  if ltb c m then c else m.

Section Sort.
Context {A : Type}.
Variable key : A -> Q.

(** An item goes in front of the first item whose key is not smaller:
    items with equal keys keep the order in which they came. *)
Fixpoint insert (x : A) (l : list A) : list A :=
  match l with
  | [] => [x]
  | y :: l' => if ltb (key y) (key x) then y :: insert x l' else x :: l
  end.

(** [l.sort(key=key)] *)
Definition sort (l : list A) : list A := fold_right insert [] l.

(** The order a sort by [key] establishes. *)
Definition key_le (a b : A) : Prop := key a <= key b.
End Sort.

(** [l.sort()] on a list of numbers. *)
Definition sort_floats (l : list Q) : list Q := sort (fun x => x) l.

End Py.

(** ** The percentile index in binary64 arithmetic *)

Module binary64.

Definition prec : Z := 53.
Definition emax : Z := 1024.

(** [float(n)] for an [int] *)
Definition of_int (n : Z) : spec_float := binary_normalize prec emax n 0 false.

(** [x * y], rounded to nearest even *)
Definition mul : spec_float -> spec_float -> spec_float := SFmul prec emax.

(** The literals [0.95] (0x3FEE666666666666) and [0.99]
    (0x3FEFAE147AE147AE). *)
Definition lit_0_95 : spec_float :=
  S754_finite false 0x1E666666666666 (-53).
Definition lit_0_99 : spec_float :=
  S754_finite false 0x1FAE147AE147AE (-53).

(** [int(x)] *)
Definition to_int (f : spec_float) : Z :=
  match f with
  | S754_finite s m e =>
    let v := if (0 <=? e)%Z then (Zpos m * 2 ^ e)%Z
             else Z.quot (Zpos m) (2 ^ (- e)) in
    if s then (- v)%Z else v
  | _ => 0%Z
  end.

(** [int(n * 0.95)] and [int(n * 0.99)] as the interpreter computes
    them. *)
Definition index_95 (n : Z) : Z := to_int (mul (of_int n) lit_0_95).
Definition index_99 (n : Z) : Z := to_int (mul (of_int n) lit_0_99).

(** Both agree with the exact computation for the lengths [1 .. bound]. *)
Definition agree_upto (bound : nat) : bool :=
  forallb (fun k =>
             let n := Z.of_nat k in
             Z.eqb (index_95 n) (Py.int (inject_Z n * (95 # 100)))
             && Z.eqb (index_99 n) (Py.int (inject_Z n * (99 # 100))))
          (seq 1 bound).

End binary64.

(** ** The store of lists *)

Module Heap.

Definition t : Type := list (list Q).

(** The list at an address. *)
Definition get (h : t) (a : nat) : list Q := nth a h [].

(** A new list; its address is the next free one. *)
Definition alloc (h : t) (l : list Q) : t * nat := (h ++ [l], List.length h).

(** Overwrite the list at an address. *)
Fixpoint update (h : t) (a : nat) (l : list Q) : t :=
  match h, a with
  | [], _ => []
  | _ :: r, O => l :: r
  | x :: r, S a' => x :: update r a' l
  end.

(** [l.sort()] for the list at address [a]. *)
Definition sort_at (h : t) (a : nat) : t :=
  update h a (Py.sort_floats (get h a)).

End Heap.

(** ** The [statistics] module *)

Module statistics.

Definition sum (l : list Q) : Q := fold_right Qplus 0 l.

(** [statistics.mean] *)
Definition mean (data : list Q) : Res Q :=
  match data with
  | [] => Raise StatisticsError
  | _ => Ok (sum data / inject_Z (Py.len data))
  end.

(** [statistics.median]: the middle item of the sorted data, or the
    average of the two middle items. *)
Definition median (data : list Q) : Res Q :=
  let data := Py.sort_floats data in
  let n := Py.len data in
  if (n =? 0)%Z then Raise StatisticsError
  else if (n mod 2 =? 1)%Z then Py.getitem data (n / 2)
  else
    let i := (n / 2)%Z in
    a <- Py.getitem data (i - 1) ;;
    b <- Py.getitem data i ;;
    Ok ((a + b) / 2).

(** Sum of the squared deviations from [c]. *)
Definition ss (data : list Q) (c : Q) : Q :=
  sum (map (fun x => (x - c) * (x - c)) data).

(** A non-negative square root, kept as its radicand. *)
Inductive Surd : Type :=
| Sqrt (radicand : Q).

Definition radicand (s : Surd) : Q :=
  match s with Sqrt r => r end.

(** Two roots of non-negative radicands are the same number exactly when
    the radicands are. *)
Definition Surd_eq (s t : Surd) : Prop := radicand s == radicand t.

(** [statistics.variance]: the sample variance, [ss / (n - 1)]. *)
Definition variance (data : list Q) : Res Q :=
  let n := Py.len data in
  if (n <? 2)%Z then Raise StatisticsError
  else
    c <- mean data ;;
    Ok (ss data c / inject_Z (n - 1)).

(** [statistics.pvariance]: the population variance, [ss / n]. *)
Definition pvariance (data : list Q) : Res Q :=
  let n := Py.len data in
  if (n <? 1)%Z then Raise StatisticsError
  else
    c <- mean data ;;
    Ok (ss data c / inject_Z n).

(** [statistics.stdev]: the square root of the sample variance. *)
Definition stdev (data : list Q) : Res Surd :=
  v <- variance data ;; Ok (Sqrt v).

(** [statistics.pstdev]: the square root of the population variance. *)
Definition pstdev (data : list Q) : Res Surd :=
  v <- pvariance data ;; Ok (Sqrt v).

End statistics.

(** ** [PythonBenchmark.calculate_stats] (benchmark_python.py) *)

(** Which arm of [times[int(n * p)] if n > 0 else 0] was evaluated. *)
Inductive Branch : Type :=
| IndexArm
| ElseArm.

(** [times[int(n * p)] if n > 0 else 0] *)
Definition percentile_expr (times : list Q) (n : Z) (p : Q)
  : Res (Branch * Q) :=
  if (n >? 0)%Z then
    v <- Py.getitem times (Py.int (inject_Z n * p)) ;; Ok (IndexArm, v)
  else Ok (ElseArm, 0).

Record Stats : Type := mkStats {
  count : Z;
  min : Q;
  max : Q;
  avg : Q;
  median : Q;
  p95 : Q;
  p99 : Q;
  stddev : statistics.Surd
}.

(** [[t / 1_000_000 for t in times]] *)
Definition to_ms (times : list Q) : list Q :=
  map (fun t => t / 1000000) times.

(** The list [times_ms] after [times_ms.sort()]. *)
Definition times_ms_of (times : list Q) : list Q :=
  Py.sort_floats (to_ms times).

(** The dictionary built from the sorted [times_ms]; next to it, the arms
    taken by the two percentile expressions. *)
Definition stats_dict (times_ms : list Q) : Res (Stats * (Branch * Branch)) :=
  let n := Py.len times_ms in
  mn <- Py.min times_ms ;;
  mx <- Py.max times_ms ;;
  av <- statistics.mean times_ms ;;
  md <- statistics.median times_ms ;;
  q95 <- percentile_expr times_ms n (95 # 100) ;;
  q99 <- percentile_expr times_ms n (99 # 100) ;;
  sd <- (if (n >? 1)%Z then statistics.stdev times_ms
         else Ok (statistics.Sqrt 0)) ;;
  Ok (mkStats n mn mx av md (snd q95) (snd q99) sd, (fst q95, fst q99)).

(** [calculate_stats] as a function of the samples. *)
Definition calculate_stats_core (times : list Q)
  : Res (option (Stats * (Branch * Branch))) :=
  match times with
  | [] => Ok None
  | _ => r <- stats_dict (times_ms_of times) ;; Ok (Some r)
  end.

Definition calculate_stats (times : list Q) : Res (option Stats) :=
  r <- calculate_stats_core times ;; Ok (option_map fst r).

(** [calculate_stats] on the store: [times] is the address of the
    argument; [times_ms] is a new list, and it is the one that is sorted. *)
Definition calculate_stats_at (h : Heap.t) (times : nat)
  : Heap.t * Res (option Stats) :=
  match Heap.get h times with
  | [] => (h, Ok None)
  | _ =>
    let (h1, times_ms) := Heap.alloc h (to_ms (Heap.get h times)) in
    let h2 := Heap.sort_at h1 times_ms in
    (h2, r <- stats_dict (Heap.get h2 times_ms) ;; Ok (Some (fst r)))
  end.

(** ** [calc_stats] (simple_python_benchmark.py) *)

Record SimpleStats : Type := mkSimpleStats {
  s_min : Q;
  s_max : Q;
  s_avg : Q;
  s_median : Q;
  s_p95 : Q;
  s_p99 : Q
}.

(** The dictionary built from [times] once [times.sort()] has run. *)
Definition simple_dict (times : list Q)
  : Res (SimpleStats * (Branch * Branch)) :=
  let n := Py.len times in
  mn <- Py.min times ;;
  mx <- Py.max times ;;
  av <- statistics.mean times ;;
  md <- statistics.median times ;;
  q95 <- percentile_expr times n (95 # 100) ;;
  q99 <- percentile_expr times n (99 # 100) ;;
  Ok (mkSimpleStats mn mx av md (snd q95) (snd q99), (fst q95, fst q99)).

(** [calc_stats] sorts the list it is given: the first component is that
    list when the call ends, the second what the call returns. *)
Definition calc_stats_core (times : list Q)
  : list Q * Res (SimpleStats * (Branch * Branch)) :=
  let times := Py.sort_floats times in
  (times, simple_dict times).

Definition calc_stats (times : list Q) : list Q * Res SimpleStats :=
  let r := calc_stats_core times in
  (fst r, s <- snd r ;; Ok (fst s)).

(** [calc_stats] on the store: the argument itself is sorted. *)
Definition calc_stats_at (h : Heap.t) (times : nat)
  : Heap.t * Res SimpleStats :=
  let h1 := Heap.sort_at h times in
  (h1, s <- simple_dict (Heap.get h1 times) ;; Ok (fst s)).

(** ** The rule of the specification for a percentile *)

(** Sort ascending, take the item at index [floor (p * n)] clamped to
    [n - 1]. *)
Definition spec_index (n : Z) (p : Q) : Z :=
  Z.min (Qfloor (inject_Z n * p)) (n - 1).

Definition spec_percentile (sorted : list Q) (p : Q) : option Q :=
  nth_error sorted (Z.to_nat (spec_index (Py.len sorted) p)).

(** The standard deviation entry of the dictionary for a sorted list. *)
Definition stddev_of (s : list Q) : statistics.Surd :=
  if (Py.len s >? 1)%Z
  then statistics.Sqrt
         (statistics.ss s (statistics.sum s / inject_Z (Py.len s))
          / inject_Z (Py.len s - 1))
  else statistics.Sqrt 0.

(** The values bound while the dictionary is built from a sorted,
    non-empty list [s], and what is known of them. *)
Definition summary_of (s : list Q) (mn mx md v95 v99 : Q) : Prop :=
  Py.min s = Ok mn /\ Py.max s = Ok mx /\ statistics.median s = Ok md
  /\ percentile_expr s (Py.len s) (95 # 100) = Ok (IndexArm, v95)
  /\ percentile_expr s (Py.len s) (99 # 100) = Ok (IndexArm, v99)
  /\ (In mn s /\ Forall (fun x => mn <= x) s)
  /\ (In mx s /\ Forall (fun x => x <= mx) s)
  /\ (mn <= md /\ md <= mx)
  /\ (nth_error s (Z.to_nat (Qfloor (inject_Z (Py.len s) * (95 # 100))))
        = Some v95
      /\ spec_percentile s (95 # 100) = Some v95)
  /\ (nth_error s (Z.to_nat (Qfloor (inject_Z (Py.len s) * (99 # 100))))
        = Some v99
      /\ spec_percentile s (99 # 100) = Some v99).

(** ** The timer and the benchmark loops (benchmark_python.py) *)

Record Measurement (R : Type) : Type := mkMeasurement {
  result : R;
  time_ns : Z;
  time_ms : Q
}.

Arguments mkMeasurement {R} _ _ _.
Arguments result {R} _.
Arguments time_ns {R} _.
Arguments time_ms {R} _.

(** [self.results] *)
Record PythonBenchmark : Type := mkPythonBenchmark {
  results_startup : list Z;
  results_operations : list Z
}.

(** [__init__] *)
Definition PythonBenchmark_init : PythonBenchmark := mkPythonBenchmark [] [].

(** Which of the two lists of [self.results] a loop appends to. *)
Inductive Scenario : Type :=
| Startup
| Operations.

Definition append_sample (s : Scenario) (self : PythonBenchmark) (t : Z)
  : PythonBenchmark :=
  match s with
  | Startup =>
      mkPythonBenchmark (results_startup self ++ [t]) (results_operations self)
  | Operations =>
      mkPythonBenchmark (results_startup self) (results_operations self ++ [t])
  end.

Section Timer.
(** What the [k]-th call of [time.perf_counter_ns()] returns. *)
Variable perf_counter_ns : nat -> Z.
Context {R : Type}.

(** [measure_time_ns]: [func] is what the call [func()] returns or
    raises, [k] the number of clock readings taken so far. *)
Definition measure_time_ns (func : Res R) (k : nat)
  : nat * Res (Measurement R) :=
  let start := perf_counter_ns k in
  match func with
  | Raise e => (S k, Raise e)
  | Ok result =>
    let end_ := perf_counter_ns (S k) in
    (S (S k),
     Ok (mkMeasurement result (end_ - start)%Z
           (inject_Z (end_ - start) / 1000000)))
  end.

(** [for i in range(iterations)]: measure the test, append [time_ns].
    [test i] is the outcome of the test function in iteration [i]. *)
Fixpoint benchmark_loop (s : Scenario) (test : nat -> Res R)
    (todo i : nat) (k : nat) (self : PythonBenchmark)
  : (nat * PythonBenchmark) * Res unit :=
  match todo with
  | O => ((k, self), Ok tt)
  | S todo' =>
    match measure_time_ns (test i) k with
    | (k', Raise e) => ((k', self), Raise e)
    | (k', Ok measurement) =>
      benchmark_loop s test todo' (S i) k'
        (append_sample s self (time_ns measurement))
    end
  end.

Definition benchmark_python_startup (startup_test : nat -> Res R)
    (iterations : nat) (k : nat) (self : PythonBenchmark) :=
  benchmark_loop Startup startup_test iterations 0 k self.

Definition benchmark_python_operations (operation_test : nat -> Res R)
    (iterations : nat) (k : nat) (self : PythonBenchmark) :=
  benchmark_loop Operations operation_test iterations 0 k self.
End Timer.

(** A clock is monotonic when a later reading is never smaller. *)
Definition monotonic (clock : nat -> Z) : Prop :=
  forall i j : nat, (i <= j)%nat -> (clock i <= clock j)%Z.

(** Every sample recorded so far is non-negative. *)
Definition nonneg_samples (self : PythonBenchmark) : Prop :=
  Forall (fun t => (0 <= t)%Z) (results_startup self)
  /\ Forall (fun t => (0 <= t)%Z) (results_operations self).

(** ** The ranking (simple_python_benchmark.py) *)

Open Scope string_scope.

Definition napi_avg_ops : Q := 1206 # 1000000.
Definition wasi_avg_ops : Q := 396 # 1000.

Definition results_list (operation_avg : Q) : list (string * Q) :=
  [("NAPI", napi_avg_ops); ("Python", operation_avg); ("WASI", wasi_avg_ops)].

(** [results.sort(key=lambda x: x[1])] *)
Definition ranking (operation_avg : Q) : list (string * Q) :=
  Py.sort snd (results_list operation_avg).

(** The order of the specification: ascending by mean, equal means by
    label. *)
Definition ranks_before (a b : string * Q) : Prop :=
  snd a < snd b \/ (snd a == snd b /\ String.leb (fst a) (fst b) = true).

(** ** The report (benchmark_python.py) *)

(** The five numbers the Node.js script reports per scenario. *)
Record NodeStats : Type := mkNodeStats {
  n_min : Q;
  n_max : Q;
  n_avg : Q;
  n_median : Q;
  n_p95 : Q
}.

(** The dictionary [run_nodejs_benchmark] returns: the measurements, or
    the error the script caught when the addon did not load. *)
Inductive NodeResults : Type :=
| NapiData (startup operations : NodeStats) (file_size_kb : Z)
| NapiError (message : string).

(** The dictionary [run_benchmark] returns. *)
Record PythonResults : Type := mkPythonResults {
  py_startup : option Stats;
  py_operations : option Stats;
  py_file_size_kb : Z
}.

Inductive Line : Type :=
| Text (s : string)
| FileSize (adapter : string) (kb : option Z)
| Row (scenario label : string) (python napi wasi : Q) (fastest : string)
| Ratios (scenario : string) (python napi wasi : Q).

(** Printing: the lines printed so far and how the code went on. *)
Definition Out (A : Type) : Type := (list Line * Res A)%type.

Definition say (l : Line) : Out unit := ([l], Ok tt).

Definition lift {A : Type} (r : Res A) : Out A := ([], r).

Definition bindO {A B : Type} (m : Out A) (k : A -> Out B) : Out B :=
  match m with
  | (o, Ok a) => let (o', r) := k a in ((o ++ o')%list, r)
  | (o, Raise e) => (o, Raise e)
  end.

Notation "x <~ m ;; k" := (bindO m (fun x => k))
  (at level 61, m at next level, right associativity).
Notation "m ;;; k" := (bindO m (fun _ => k))
  (at level 61, right associativity).

(** [d["startup"]], [d["operations"]], [d["file_size_kb"]] on the Node.js
    dictionary. *)
Definition node_startup (d : NodeResults) : Res NodeStats :=
  match d with NapiData s _ _ => Ok s | NapiError _ => Raise KeyError end.

Definition node_operations (d : NodeResults) : Res NodeStats :=
  match d with NapiData _ o _ => Ok o | NapiError _ => Raise KeyError end.

Definition node_file_size_kb (d : NodeResults) : Res Z :=
  match d with NapiData _ _ kb => Ok kb | NapiError _ => Raise KeyError end.

(** [s[key]] where [s] may be [None]. *)
Definition field (s : option Stats) (key : Stats -> Q) : Res Q :=
  match s with Some d => Ok (key d) | None => Raise TypeError end.

(** The name printed in the column "Fastest". *)
Definition fastest_name (python napi wasi : Q) : string :=
  let fastest := Py.min3 python napi wasi in
  if Qeq_bool fastest python then "Python"
  else if Qeq_bool fastest napi then "NAPI"
  else "WASI".

(** The three ratios relative to the fastest. *)
Definition ratios (python napi wasi : Q) : Res (Q * Q * Q) :=
  let fastest := Py.min3 python napi wasi in
  py_ratio <- Py.truediv python fastest ;;
  napi_ratio <- Py.truediv napi fastest ;;
  wasi_ratio <- Py.truediv wasi fastest ;;
  Ok (py_ratio, napi_ratio, wasi_ratio).

Definition wasi_startup_avg : Q := 1203 # 1000.
Definition wasi_ops_avg : Q := 396 # 1000.

(** The block under [if python_results and nodejs_results]. *)
Definition print_comparison (python_results : PythonResults)
    (nodejs_results : NodeResults) : Out unit :=
  let py_startup_ := py_startup python_results in
  napi_startup <~ lift (node_startup nodejs_results) ;;
  say (Text "STARTUP PERFORMANCE (ms)") ;;;
  pa <~ lift (field py_startup_ avg) ;;
  say (Row "startup" "Average" pa (n_avg napi_startup) wasi_startup_avg
         (fastest_name pa (n_avg napi_startup) wasi_startup_avg)) ;;;
  pm <~ lift (field py_startup_ median) ;;
  say (Row "startup" "Median" pm (n_median napi_startup) (1059 # 1000)
         (fastest_name pm (n_median napi_startup) (1059 # 1000))) ;;;
  pp <~ lift (field py_startup_ p95) ;;
  say (Row "startup" "95th percentile" pp (n_p95 napi_startup) (1996 # 1000)
         (fastest_name pp (n_p95 napi_startup) (1996 # 1000))) ;;;
  let py_ops := py_operations python_results in
  napi_ops <~ lift (node_operations nodejs_results) ;;
  say (Text "OPERATION PERFORMANCE (ms)") ;;;
  oa <~ lift (field py_ops avg) ;;
  say (Row "operations" "Average" oa (n_avg napi_ops) wasi_ops_avg
         (fastest_name oa (n_avg napi_ops) wasi_ops_avg)) ;;;
  om <~ lift (field py_ops median) ;;
  say (Row "operations" "Median" om (n_median napi_ops) (230 # 1000)
         (fastest_name om (n_median napi_ops) (230 # 1000))) ;;;
  say (Text "PERFORMANCE RATIOS (relative to fastest)") ;;;
  rs <~ lift (ratios pa (n_avg napi_startup) wasi_startup_avg) ;;
  say (Ratios "startup" (fst (fst rs)) (snd (fst rs)) (snd rs)) ;;;
  ro <~ lift (ratios oa (n_avg napi_ops) wasi_ops_avg) ;;
  say (Ratios "operations" (fst (fst ro)) (snd (fst ro)) (snd ro)).

(** [d['file_size_kb'] if d else 'N/A'] *)
Definition python_size (python_results : option PythonResults)
  : Res (option Z) :=
  match python_results with
  | Some d => Ok (Some (py_file_size_kb d))
  | None => Ok None
  end.

Definition node_size (nodejs_results : option NodeResults)
  : Res (option Z) :=
  match nodejs_results with
  | Some d => kb <- node_file_size_kb d ;; Ok (Some kb)
  | None => Ok None
  end.

Definition print_comprehensive_results
    (python_results : option PythonResults)
    (nodejs_results : option NodeResults) : Out unit :=
  say (Text "COMPREHENSIVE PERFORMANCE COMPARISON") ;;;
  say (Text "FILE SIZES") ;;;
  ps <~ lift (python_size python_results) ;;
  say (FileSize "Python (.so)" ps) ;;;
  ns <~ lift (node_size nodejs_results) ;;
  say (FileSize "NAPI (.node)" ns) ;;;
  say (FileSize "WASI (.wasm)" (Some 50%Z)) ;;;
  match python_results, nodejs_results with
  | Some p, Some n => print_comparison p n
  | _, _ => lift (Ok tt)
  end ;;;
  say (Text "TECHNOLOGY COMPARISON SUMMARY") ;;;
  say (Text "USE CASE RECOMMENDATIONS").

(** [main]: [run_benchmark] and [run_nodejs_benchmark] are what the two
    benchmark runs return. *)
Definition main (PYTHON_AVAILABLE : bool)
    (run_benchmark : option PythonResults)
    (run_nodejs_benchmark : option NodeResults) : Out unit :=
  say (Text "SuperConfig FFI Comprehensive Performance Benchmark") ;;;
  let python_results := if PYTHON_AVAILABLE then run_benchmark else None in
  let nodejs_results := run_nodejs_benchmark in
  print_comprehensive_results python_results nodejs_results ;;;
  say (Text "Comprehensive benchmark complete!") ;;;
  match python_results with
  | Some _ => lift (Ok tt)
  | None => say (Text "To test Python performance: ...")
  end.

(** A line that shows measured timings. *)
Definition shows_timings (l : Line) : bool :=
  match l with
  | Row _ _ _ _ _ _ => true
  | Ratios _ _ _ _ => true
  | _ => false
  end.

(** ** Sample inputs *)

(** Measurements as the Node.js script could report them. *)
Definition sample_node_stats : NodeStats := mkNodeStats 1 3 2 2 3.

(** A clock that advances 1000 ns between two readings. *)
Definition sample_clock (k : nat) : Z := (Z.of_nat k * 1000)%Z.

Close Scope string_scope.

(** * The rest of the two scripts *)

(** ** [run_benchmark] (benchmark_python.py) *)

(** The warm-up: [for _ in range(5)], a constructor call and a getter
    call; [warm i] is what iteration [i] returns or raises. *)
Fixpoint warmup_loop (warm : nat -> Res unit) (todo i : nat) : Res unit :=
  match todo with
  | O => Ok tt
  | S todo' =>
    match warm i with
    | Raise e => Raise e
    | Ok _ => warmup_loop warm todo' (S i)
    end
  end.

(** The samples a loop appends when it starts at clock reading [k] and
    runs [n] iterations: two readings per iteration, in the order of
    execution. *)
Definition loop_samples (clock : nat -> Z) (k n : nat) : list Z :=
  map (fun j => (clock (k + 2 * j + 1)%nat - clock (k + 2 * j)%nat)%Z)
      (seq 0 n).

(** The list of [self.results] a scenario appends to, and the other
    scenario. *)
Definition recorded (s : Scenario) (self : PythonBenchmark) : list Z :=
  match s with
  | Startup => results_startup self
  | Operations => results_operations self
  end.

Definition other (s : Scenario) : Scenario :=
  match s with
  | Startup => Operations
  | Operations => Startup
  end.

Section Run.
Variable perf_counter_ns : nat -> Z.
Context {R : Type}.

(** [run_benchmark]: the default iteration counts are 50 and 1000. *)
Definition run_benchmark (PYTHON_AVAILABLE : bool) (warm : nat -> Res unit)
    (startup_test operation_test : nat -> Res R)
    (k : nat) (self : PythonBenchmark)
  : (nat * PythonBenchmark) * Res (option PythonResults) :=
  if negb PYTHON_AVAILABLE then ((k, self), Ok None)
  else
    match warmup_loop warm 5 0 with
    | Raise e => ((k, self), Raise e)
    | Ok _ =>
      match benchmark_python_startup perf_counter_ns startup_test 50 k self
      with
      | (st1, Raise e) => (st1, Raise e)
      | ((k1, self1), Ok _) =>
        match benchmark_python_operations perf_counter_ns operation_test
                1000 k1 self1
        with
        | (st2, Raise e) => (st2, Raise e)
        | ((k2, self2), Ok _) =>
          ((k2, self2),
           startup_stats <-
             calculate_stats (map inject_Z (results_startup self2)) ;;
           operations_stats <-
             calculate_stats (map inject_Z (results_operations self2)) ;;
           Ok (Some (mkPythonResults startup_stats operations_stats 681)))
        end
      end
    end.
End Run.

(** ** [calcStats] of the Node.js script (benchmark_python.py, the text
    written to temp_nodejs_benchmark.js) *)

Module Js.

(** A JavaScript value as the script can produce one. *)
Inductive Val : Type :=
| Num (q : Q)
| Undefined
| NaN.

(** [arr[i]]: [undefined] out of range. *)
Definition get (arr : list Q) (i : Z) : Val :=
  if (i <? 0)%Z then Undefined
  else match nth_error arr (Z.to_nat i) with
       | Some v => Num v
       | None => Undefined
       end.

(** [a + b] and [a / 2]: anything that is not a number gives [NaN]. *)
Definition add (a b : Val) : Val :=
  match a, b with
  | Num x, Num y => Num (x + y)
  | _, _ => NaN
  end.

Definition half (a : Val) : Val :=
  match a with
  | Num x => Num (x / 2)
  | _ => NaN
  end.

(** [arr.reduce((a, b) => a + b)]: [TypeError] on an empty array.  The
    running sum adds doubles from left to right and rounds at every step,
    where [statistics.mean] sums exactly and rounds once; [fadd] is that
    rounded addition of two doubles, left open. *)
Definition reduce_add (fadd : Q -> Q -> Q) (arr : list Q) : Res Q :=
  match arr with
  | [] => Raise TypeError
  | x :: r => Ok (fold_left fadd r x)
  end.

Record Stats : Type := mkStats {
  min : Val;
  max : Val;
  avg : Val;
  median : Val;
  p95 : Val
}.

(** [calcStats]: [times.sort((a, b) => a - b)] is a stable numeric sort;
    [fadd] is the addition the reduce uses. *)
Definition calcStats (fadd : Q -> Q -> Q) (times : list Q) : Res Stats :=
  let times := Py.sort_floats times in
  let n := Py.len times in
  let mn := get times 0 in
  let mx := get times (n - 1) in
  total <- reduce_add fadd times ;;
  Ok (mkStats mn mx (Num (total / inject_Z n))
        (if (n mod 2 =? 0)%Z
         then half (add (get times (n / 2 - 1)) (get times (n / 2)))
         else get times (Qfloor (inject_Z n / 2)))
        (get times (Qfloor (inject_Z n * (95 # 100))))).

(** A value is a number equal to [q]. *)
Definition is_num (v : Val) (q : Q) : Prop :=
  match v with
  | Num x => x == q
  | _ => False
  end.

End Js.

(** ** The end of [benchmark_python] (simple_python_benchmark.py) *)

(** The place, counted from 1 as [enumerate(results, 1)] does, of a label
    in the ranking. *)
Fixpoint place_from (label : string) (results : list (string * Q)) (i : nat)
  : option nat :=
  match results with
  | [] => None
  | (name, _) :: rest =>
    if String.eqb name label then Some i else place_from label rest (S i)
  end.

Definition place (label : string) (results : list (string * Q))
  : option nat :=
  place_from label results 1.

(** The two numbers printed under "Speed vs Python":
    [python_time/napi_avg_ops] and [wasi_avg_ops/python_time]. *)
Definition speed_vs_python (python_time : Q) : Res (Q * Q) :=
  napi_faster <- Py.truediv python_time napi_avg_ops ;;
  python_faster <- Py.truediv wasi_avg_ops python_time ;;
  Ok (napi_faster, python_faster).



(** ** [measure_time_ms] and [benchmark_python]
    (simple_python_benchmark.py) *)

(** What [benchmark_python] computes before it prints. *)
Record SimpleReport : Type := mkSimpleReport {
  startup_stats : SimpleStats;
  operation_stats : SimpleStats;
  results : list (string * Q);
  speed : Q * Q
}.

(** The items a timing loop appends when it starts at clock reading [k]
    and runs [n] iterations. *)
Definition loop_times (clock : nat -> Q) (k n : nat) : list Q :=
  map (fun j => (clock (k + 2 * j + 1)%nat - clock (k + 2 * j)%nat) * 1000)
      (seq 0 n).

(** A clock whose later reading is always larger. *)
Definition increasing (clock : nat -> Q) : Prop :=
  forall i j : nat, (i < j)%nat -> clock i < clock j.

Section SimpleBenchmark.
(** What the [k]-th call of [time.perf_counter()] returns, in seconds. *)
Variable perf_counter : nat -> Q.

(** [measure_time_ms]: [func] is what the call [func()] does. *)
Definition measure_time_ms (func : Res unit) (k : nat) : nat * Res Q :=
  let start := perf_counter k in
  match func with
  | Raise e => (S k, Raise e)
  | Ok _ =>
    let end_ := perf_counter (S k) in
    (S (S k), Ok ((end_ - start) * 1000))
  end.

(** [for i in range(n): time_ms = measure_time_ms(...);
    times.append(time_ms)] *)
Fixpoint timing_loop (test : nat -> Res unit) (todo i k : nat)
    (times : list Q) : (nat * list Q) * Res unit :=
  match todo with
  | O => ((k, times), Ok tt)
  | S todo' =>
    match measure_time_ms (test i) k with
    | (k', Raise e) => ((k', times), Raise e)
    | (k', Ok time_ms) => timing_loop test todo' (S i) k' (times ++ [time_ms])
    end
  end.

(** [benchmark_python]: the state is the number of clock readings and the
    two lists of timings; [create i] and [get_verbosity i] are what the
    timed calls of iteration [i] do. *)
Definition benchmark_python (create get_verbosity : nat -> Res unit)
    (k : nat) : (nat * (list Q * list Q)) * Res SimpleReport :=
  match timing_loop create 100 0 k [] with
  | ((k1, startup_times), Raise e) => ((k1, (startup_times, [])), Raise e)
  | ((k1, startup_times), Ok _) =>
    match timing_loop get_verbosity 1000 0 k1 [] with
    | ((k2, operation_times), Raise e) =>
        ((k2, (startup_times, operation_times)), Raise e)
    | ((k2, operation_times), Ok _) =>
      let s := calc_stats startup_times in
      match snd s with
      | Raise e => ((k2, (fst s, operation_times)), Raise e)
      | Ok startup_stats =>
        let o := calc_stats operation_times in
        ((k2, (fst s, fst o)),
         operation_stats <- snd o ;;
         let results := ranking (s_avg operation_stats) in
         speed <- speed_vs_python (s_avg operation_stats) ;;
         Ok (mkSimpleReport startup_stats operation_stats results speed))
      end
    end
  end.
End SimpleBenchmark.

(** A clock that advances a millisecond between two readings. *)
Definition sample_clock_s (k : nat) : Q := inject_Z (Z.of_nat k) / 1000.

(** * Facts about the built-ins *)

Lemma ltb_true (x y : Q) : Py.ltb x y = true <-> x < y.
Proof.
  unfold Py.ltb. rewrite negb_true_iff.
  split; intro H.
  - apply Qnot_le_lt. intro Hle. apply Qle_bool_iff in Hle. congruence.
  - destruct (Qle_bool y x) eqn:E; [|reflexivity].
    apply Qle_bool_iff in E. exfalso. apply (Qlt_not_le _ _ H E).
Qed.

Lemma ltb_false (x y : Q) : Py.ltb x y = false <-> y <= x.
Proof.
  unfold Py.ltb. rewrite negb_false_iff. apply Qle_bool_iff.
Qed.

Section SortFacts.
Context {A : Type}.
Variable key : A -> Q.

Lemma insert_perm (x : A) (l : list A) :
  Permutation (Py.insert key x l) (x :: l).
Proof.
  induction l as [|y l IH]; simpl.
  - apply Permutation_refl.
  - destruct (Py.ltb (key y) (key x)).
    + eapply perm_trans; [apply perm_skip, IH | apply perm_swap].
    + apply Permutation_refl.
Qed.

Lemma sort_perm (l : list A) : Permutation (Py.sort key l) l.
Proof.
  induction l as [|x l IH]; simpl.
  - constructor.
  - eapply perm_trans; [apply insert_perm | apply perm_skip, IH].
Qed.

Lemma sort_length (l : list A) :
  List.length (Py.sort key l) = List.length l.
Proof. apply Permutation_length, sort_perm. Qed.

Lemma insert_sorted (x : A) (l : list A) :
  StronglySorted (Py.key_le key) l -> StronglySorted (Py.key_le key) (Py.insert key x l).
Proof.
  induction 1 as [|y l Hs IH Hall]; simpl.
  - repeat constructor.
  - destruct (Py.ltb (key y) (key x)) eqn:E.
    + constructor; [exact IH|].
      apply (Permutation_Forall (Permutation_sym (insert_perm x l))).
      constructor; [|exact Hall].
      apply ltb_true in E. apply Qlt_le_weak, E.
    + apply ltb_false in E.
      constructor; [constructor; assumption|].
      constructor; [exact E|].
      eapply Forall_impl; [|exact Hall].
      intros a Ha. unfold Py.key_le in *. eapply Qle_trans; eassumption.
Qed.

Lemma sort_sorted (l : list A) : StronglySorted (Py.key_le key) (Py.sort key l).
Proof.
  induction l as [|x l IH]; simpl.
  - constructor.
  - apply insert_sorted, IH.
Qed.

(** Sorting a list that is already in order leaves it as it is. *)
Lemma sort_of_sorted (l : list A) :
  StronglySorted (Py.key_le key) l -> Py.sort key l = l.
Proof.
  induction 1 as [|x l Hs IH Hall]; simpl; [reflexivity|].
  rewrite IH. destruct l as [|y l']; [reflexivity|]. simpl.
  inversion Hall as [|? ? Hxy _]; subst.
  apply ltb_false in Hxy. now rewrite Hxy.
Qed.
End SortFacts.

Lemma sort_floats_perm (l : list Q) : Permutation (Py.sort_floats l) l.
Proof. apply sort_perm. Qed.

Lemma sort_floats_length (l : list Q) :
  List.length (Py.sort_floats l) = List.length l.
Proof. apply sort_length. Qed.

Lemma sort_floats_sorted (l : list Q) : StronglySorted Qle (Py.sort_floats l).
Proof. exact (sort_sorted (fun x => x) l). Qed.

Lemma sort_floats_nonempty (l : list Q) : l <> [] -> Py.sort_floats l <> [].
Proof.
  intros Hl E. pose proof (sort_floats_length l) as Hn. rewrite E in Hn.
  destruct l; [congruence | discriminate].
Qed.

Lemma sorted_nth_le (l : list Q) :
  StronglySorted Qle l ->
  forall (i j : nat) (a b : Q),
    (i <= j)%nat -> nth_error l i = Some a -> nth_error l j = Some b ->
    a <= b.
Proof.
  induction 1 as [|x l Hs IH Hall]; intros i j a b Hij Ha Hb.
  - destruct i; discriminate.
  - destruct i as [|i], j as [|j]; simpl in *.
    + injection Ha as <-. injection Hb as <-. apply Qle_refl.
    + injection Ha as <-. apply nth_error_In in Hb.
      rewrite Forall_forall in Hall. now apply Hall.
    + lia.
    + apply (IH i j); [lia | assumption | assumption].
Qed.

Lemma getitem_ok {A : Type} (l : list A) (i : Z) :
  (0 <= i < Py.len l)%Z ->
  exists v, Py.getitem l i = Ok v /\ nth_error l (Z.to_nat i) = Some v.
Proof.
  intros [H0 H1]. unfold Py.getitem.
  destruct (i <? 0)%Z eqn:E; [apply Z.ltb_lt in E; lia|]. rewrite E.
  destruct (nth_error l (Z.to_nat i)) as [v|] eqn:En.
  - now exists v.
  - apply nth_error_None in En. unfold Py.len in H1. lia.
Qed.

Lemma min_spec (l : list Q) :
  l <> [] ->
  exists m, Py.min l = Ok m /\ In m l /\ Forall (fun x => m <= x) l.
Proof.
  destruct l as [|x r]; [congruence|]. intros _. simpl.
  eexists; split; [reflexivity|].
  assert (G : forall r m,
    let f := fold_left (fun m y => if Py.ltb y m then y else m) r m in
    (f = m \/ In f r) /\ f <= m /\ Forall (fun x => f <= x) r).
  { clear. induction r as [|y r IH]; intros m; simpl.
    - split; [now left|]. split; [apply Qle_refl | constructor].
    - destruct (Py.ltb y m) eqn:E.
      + destruct (IH y) as (Hin & Hle & Hall).
        apply ltb_true in E.
        split; [right; destruct Hin as [->|]; auto|].
        split; [eapply Qle_trans; [exact Hle | apply Qlt_le_weak, E]|].
        constructor; assumption.
      + destruct (IH m) as (Hin & Hle & Hall).
        apply ltb_false in E.
        split; [destruct Hin; auto|].
        split; [exact Hle|].
        constructor; [eapply Qle_trans; eassumption | assumption]. }
  destruct (G r x) as (Hin & Hle & Hall).
  split; [destruct Hin as [->|]; [now left | now right]|].
  constructor; assumption.
Qed.

Lemma max_spec (l : list Q) :
  l <> [] ->
  exists m, Py.max l = Ok m /\ In m l /\ Forall (fun x => x <= m) l.
Proof.
  destruct l as [|x r]; [congruence|]. intros _. simpl.
  eexists; split; [reflexivity|].
  assert (G : forall r m,
    let f := fold_left (fun m y => if Py.ltb m y then y else m) r m in
    (f = m \/ In f r) /\ m <= f /\ Forall (fun x => x <= f) r).
  { clear. induction r as [|y r IH]; intros m; simpl.
    - split; [now left|]. split; [apply Qle_refl | constructor].
    - destruct (Py.ltb m y) eqn:E.
      + destruct (IH y) as (Hin & Hle & Hall).
        apply ltb_true in E.
        split; [right; destruct Hin as [->|]; auto|].
        split; [eapply Qle_trans; [apply Qlt_le_weak, E | exact Hle]|].
        constructor; assumption.
      + destruct (IH m) as (Hin & Hle & Hall).
        apply ltb_false in E.
        split; [destruct Hin; auto|].
        split; [exact Hle|].
        constructor; [eapply Qle_trans; eassumption | assumption]. }
  destruct (G r x) as (Hin & Hle & Hall).
  split; [destruct Hin as [->|]; [now left | now right]|].
  constructor; assumption.
Qed.

(** * Percentile index *)

Lemma int_scale_floor (n : Z) (p : Q) :
  (0 <= n)%Z -> 0 <= p ->
  Py.int (inject_Z n * p) = Qfloor (inject_Z n * p).
Proof.
  destruct p as [a b]. unfold Qle. simpl. intros Hn Ha.
  unfold Py.int. simpl.
  apply Z.quot_div_nonneg; [nia | lia].
Qed.

Lemma floor_scale_range (n : Z) (p : Q) :
  (1 <= n)%Z -> 0 <= p -> p < 1 ->
  (0 <= Qfloor (inject_Z n * p) <= n - 1)%Z.
Proof.
  destruct p as [a b]. unfold Qle, Qlt. simpl. intros Hn Ha Hb.
  split.
  - apply Z.div_pos; [nia | lia].
  - assert (n * a / Z.pos b < n)%Z; [|lia].
    apply Z.div_lt_upper_bound; [lia | nia].
Qed.

Lemma floor_scale_mono (n : Z) (p q : Q) :
  (0 <= n)%Z -> p <= q ->
  (Qfloor (inject_Z n * p) <= Qfloor (inject_Z n * q))%Z.
Proof.
  intros Hn Hpq. apply Qfloor_resp_le.
  rewrite (Qmult_comm _ p), (Qmult_comm _ q).
  apply Qmult_le_compat_r; [exact Hpq|].
  change 0 with (inject_Z 0). rewrite <- Zle_Qle. exact Hn.
Qed.

Lemma agree_upto_spec (bound : nat) (n : Z) :
  binary64.agree_upto bound = true ->
  (1 <= n <= Z.of_nat bound)%Z ->
  binary64.index_95 n = Py.int (inject_Z n * (95 # 100))
  /\ binary64.index_99 n = Py.int (inject_Z n * (99 # 100)).
Proof.
  intros H Hn.
  unfold binary64.agree_upto in H. rewrite forallb_forall in H.
  assert (Hin : In (Z.to_nat n) (seq 1 bound)) by (apply in_seq; lia).
  apply H in Hin. rewrite Z2Nat.id in Hin by lia.
  apply andb_true_iff in Hin. destruct Hin as [H1 H2].
  apply Z.eqb_eq in H1, H2. now split.
Qed.

(** For every list length from 1 to 5000 (the scripts use 50, 100 and
    1000) the binary64 evaluation of the two indices is the exact one. *)
Lemma binary64_index_agrees (n : Z) :
  (1 <= n <= 5000)%Z ->
  binary64.index_95 n = Py.int (inject_Z n * (95 # 100))
  /\ binary64.index_99 n = Py.int (inject_Z n * (99 # 100)).
Proof.
  intros Hn. apply (agree_upto_spec 5000).
  - vm_compute. reflexivity.
  - change (Z.of_nat 5000) with 5000%Z. exact Hn.
Qed.

(** * The percentile expression, the median and the mean *)

Lemma len_pos {A : Type} (l : list A) : l <> [] -> (1 <= Py.len l)%Z.
Proof. destruct l; [congruence|]. unfold Py.len. simpl. lia. Qed.

Lemma percentile_expr_spec (s : list Q) (p : Q) :
  s <> [] -> 0 <= p -> p < 1 ->
  exists v,
    percentile_expr s (Py.len s) p = Ok (IndexArm, v)
    /\ nth_error s (Z.to_nat (Qfloor (inject_Z (Py.len s) * p))) = Some v
    /\ spec_percentile s p = Some v.
Proof.
  intros Hs H0 H1. pose proof (len_pos s Hs) as Hn.
  pose proof (floor_scale_range _ _ Hn H0 H1) as Hr.
  unfold percentile_expr.
  destruct (Py.len s >? 0)%Z eqn:E; [|rewrite Z.gtb_ltb in E; apply Z.ltb_ge in E; lia].
  rewrite int_scale_floor by (assumption || lia).
  destruct (getitem_ok s (Qfloor (inject_Z (Py.len s) * p))) as (v & Hg & Hv);
    [lia|].
  exists v. rewrite Hg. simpl. split; [reflexivity|]. split; [exact Hv|].
  unfold spec_percentile, spec_index. rewrite Z.min_l by lia. exact Hv.
Qed.

Lemma mean_spec (l : list Q) :
  l <> [] ->
  statistics.mean l = Ok (statistics.sum l / inject_Z (Py.len l)).
Proof. destruct l; [congruence | reflexivity]. Qed.

Lemma median_between (l : list Q) (lo hi : Q) :
  l <> [] -> Forall (fun x => lo <= x /\ x <= hi) l ->
  exists md, statistics.median l = Ok md /\ lo <= md /\ md <= hi.
Proof.
  intros Hl Hall. unfold statistics.median.
  set (d := Py.sort_floats l).
  assert (Hd : Forall (fun x => lo <= x /\ x <= hi) d).
  { apply (Permutation_Forall (Permutation_sym (sort_floats_perm l))), Hall. }
  assert (Hn : (1 <= Py.len d)%Z).
  { unfold Py.len, d. rewrite sort_floats_length. now apply len_pos. }
  assert (Hget : forall i, (0 <= i < Py.len d)%Z ->
            exists v, Py.getitem d i = Ok v /\ lo <= v /\ v <= hi).
  { intros i Hi. destruct (getitem_ok d i Hi) as (v & Hg & Hv).
    exists v. split; [exact Hg|].
    apply nth_error_In in Hv. rewrite Forall_forall in Hd. now apply Hd. }
  destruct (Py.len d =? 0)%Z eqn:E0; [apply Z.eqb_eq in E0; lia|].
  destruct (Py.len d mod 2 =? 1)%Z eqn:E1.
  - destruct (Hget (Py.len d / 2)%Z) as (v & Hg & Hv).
    { split; [apply Z.div_pos; lia | apply Z.div_lt; lia]. }
    exists v. now split.
  - apply Z.eqb_neq in E1.
    assert (Hh : (1 <= Py.len d / 2 < Py.len d)%Z).
    { pose proof (Z.div_mod (Py.len d) 2 ltac:(lia)).
      pose proof (Z.mod_pos_bound (Py.len d) 2 ltac:(lia)). lia. }
    destruct (Hget (Py.len d / 2 - 1)%Z) as (a & Ha & Ha1 & Ha2); [lia|].
    destruct (Hget (Py.len d / 2)%Z) as (b & Hb & Hb1 & Hb2); [lia|].
    rewrite Ha, Hb. simpl. exists ((a + b) / 2). split; [reflexivity|].
    split.
    + apply Qle_shift_div_l; [reflexivity | lra].
    + apply Qle_shift_div_r; [reflexivity | lra].
Qed.


(** * What the two statistics functions return on a non-empty list *)

Lemma summary_exists (s : list Q) :
  s <> [] -> exists mn mx md v95 v99, summary_of s mn mx md v95 v99.
Proof.
  intros Hs.
  destruct (min_spec s Hs) as (mn & Hmn & Hmn_in & Hmn_all).
  destruct (max_spec s Hs) as (mx & Hmx & Hmx_in & Hmx_all).
  destruct (median_between s mn mx Hs) as (md & Hmd & Hmd1 & Hmd2).
  { rewrite Forall_forall in *. intros x Hx. split; auto. }
  destruct (percentile_expr_spec s (95 # 100) Hs) as (v95 & H95 & H95n & H95s);
    [discriminate | reflexivity |].
  destruct (percentile_expr_spec s (99 # 100) Hs) as (v99 & H99 & H99n & H99s);
    [discriminate | reflexivity |].
  exists mn, mx, md, v95, v99. unfold summary_of. tauto.
Qed.

Lemma floor_scale_nonneg (n : Z) (p : Q) :
  (0 <= n)%Z -> 0 <= p -> (0 <= Qfloor (inject_Z n * p))%Z.
Proof.
  intros Hn Hp. apply Qfloor_resp_le with (x := 0).
  apply Qmult_le_0_compat; [|exact Hp].
  change 0 with (inject_Z 0). rewrite <- Zle_Qle. exact Hn.
Qed.

Lemma summary_p95_le_p99 (s : list Q) (mn mx md v95 v99 : Q) :
  StronglySorted Qle s -> summary_of s mn mx md v95 v99 -> v95 <= v99.
Proof.
  intros Hsorted (_ & _ & _ & _ & _ & _ & _ & _ & (H95 & _) & (H99 & _)).
  eapply (sorted_nth_le s Hsorted); [|exact H95|exact H99].
  assert (Hn : (0 <= Py.len s)%Z) by (unfold Py.len; lia).
  apply Z2Nat.inj_le.
  - apply floor_scale_nonneg; [exact Hn | discriminate].
  - apply floor_scale_nonneg; [exact Hn | discriminate].
  - apply floor_scale_mono; [exact Hn | discriminate].
Qed.

Lemma stddev_expr_ok (s : list Q) :
  s <> [] ->
  (if (Py.len s >? 1)%Z then statistics.stdev s else Ok (statistics.Sqrt 0))
  = Ok (stddev_of s).
Proof.
  intros Hs. unfold stddev_of.
  destruct (Py.len s >? 1)%Z eqn:E; [|reflexivity].
  rewrite Z.gtb_ltb in E. apply Z.ltb_lt in E.
  unfold statistics.stdev, statistics.variance.
  destruct (Py.len s <? 2)%Z eqn:E2; [apply Z.ltb_lt in E2; lia|].
  now rewrite (mean_spec s Hs).
Qed.

Lemma stats_dict_ok (s : list Q) (mn mx md v95 v99 : Q) :
  s <> [] ->
  summary_of s mn mx md v95 v99 ->
  stats_dict s =
  Ok (mkStats (Py.len s) mn mx (statistics.sum s / inject_Z (Py.len s))
        md v95 v99 (stddev_of s),
      (IndexArm, IndexArm)).
Proof.
  intros Hs (Hmn & Hmx & Hmd & H95 & H99 & _).
  unfold stats_dict. cbv beta iota zeta.
  rewrite Hmn, Hmx, (mean_spec _ Hs), Hmd, H95, H99, (stddev_expr_ok _ Hs).
  reflexivity.
Qed.

Lemma simple_dict_ok (s : list Q) (mn mx md v95 v99 : Q) :
  s <> [] ->
  summary_of s mn mx md v95 v99 ->
  simple_dict s =
  Ok (mkSimpleStats mn mx (statistics.sum s / inject_Z (Py.len s))
        md v95 v99,
      (IndexArm, IndexArm)).
Proof.
  intros Hs (Hmn & Hmx & Hmd & H95 & H99 & _).
  unfold simple_dict. cbv beta iota zeta.
  rewrite Hmn, Hmx, (mean_spec _ Hs), Hmd, H95, H99. reflexivity.
Qed.

Lemma times_ms_len (times : list Q) :
  Py.len (times_ms_of times) = Py.len times.
Proof.
  unfold Py.len, times_ms_of, to_ms.
  now rewrite sort_floats_length, length_map.
Qed.

Lemma times_ms_nonempty (times : list Q) :
  times <> [] -> times_ms_of times <> [].
Proof.
  intros Ht. apply sort_floats_nonempty. destruct times; [congruence|].
  discriminate.
Qed.

Lemma times_ms_sorted (times : list Q) :
  StronglySorted Qle (times_ms_of times).
Proof. apply sort_floats_sorted. Qed.

Lemma calculate_stats_core_nonempty (times : list Q) :
  times <> [] ->
  calculate_stats_core times =
  r <- stats_dict (times_ms_of times) ;; Ok (Some r).
Proof. destruct times; [congruence | reflexivity]. Qed.

(** * The store *)

Lemma get_update_same (h : Heap.t) (a : nat) (l : list Q) :
  (a < List.length h)%nat -> Heap.get (Heap.update h a l) a = l.
Proof.
  revert a. induction h as [|x h IH]; intros [|a] Ha; simpl in *;
    try lia; [reflexivity|].
  apply IH. lia.
Qed.

Lemma get_update_other (h : Heap.t) (a b : nat) (l : list Q) :
  a <> b -> Heap.get (Heap.update h a l) b = Heap.get h b.
Proof.
  revert a b. induction h as [|x h IH]; intros [|a] [|b] Hab; simpl;
    try reflexivity; try congruence.
  apply IH. congruence.
Qed.

Lemma get_alloc_old (h : Heap.t) (l : list Q) (b : nat) :
  (b < List.length h)%nat -> Heap.get (fst (Heap.alloc h l)) b = Heap.get h b.
Proof. intros Hb. unfold Heap.get, Heap.alloc. simpl. now apply app_nth1. Qed.

Lemma get_alloc_new (h : Heap.t) (l : list Q) :
  Heap.get (fst (Heap.alloc h l)) (snd (Heap.alloc h l)) = l.
Proof.
  unfold Heap.get, Heap.alloc. simpl.
  rewrite app_nth2 by lia. now rewrite Nat.sub_diag.
Qed.

Lemma calculate_stats_at_heap (h : Heap.t) (times : nat) :
  fst (calculate_stats_at h times) = h
  \/ fst (calculate_stats_at h times)
     = Heap.sort_at (h ++ [to_ms (Heap.get h times)]) (List.length h).
Proof.
  unfold calculate_stats_at. destruct (Heap.get h times); [now left|].
  now right.
Qed.

(** The value [calculate_stats] returns on the store is the one computed
    from the contents of its argument. *)
Lemma calculate_stats_at_result (h : Heap.t) (times : nat) :
  snd (calculate_stats_at h times) = calculate_stats (Heap.get h times).
Proof.
  unfold calculate_stats_at, calculate_stats, calculate_stats_core.
  destruct (Heap.get h times) as [|t r] eqn:E; [reflexivity|].
  unfold Heap.alloc. cbv beta iota zeta. unfold Heap.sort_at.
  unfold snd at 1.
  assert (Hnew : Heap.get (h ++ [to_ms (t :: r)]) (List.length h)
                 = to_ms (t :: r)).
  { exact (get_alloc_new h (to_ms (t :: r))). }
  rewrite Hnew, get_update_same by (rewrite length_app; simpl; lia).
  fold (times_ms_of (t :: r)).
  destruct (stats_dict (times_ms_of (t :: r))); reflexivity.
Qed.

(** * The statistics functions: percentiles, order, empty input *)

Lemma calculate_stats_value (times : list Q) (mn mx md v95 v99 : Q) :
  times <> [] ->
  summary_of (times_ms_of times) mn mx md v95 v99 ->
  calculate_stats_core times =
  Ok (Some (mkStats (Py.len times) mn mx
              (statistics.sum (times_ms_of times)
               / inject_Z (Py.len (times_ms_of times)))
              md v95 v99 (stddev_of (times_ms_of times)),
            (IndexArm, IndexArm))).
Proof.
  intros Ht Hs.
  rewrite (calculate_stats_core_nonempty _ Ht).
  rewrite (stats_dict_ok _ _ _ _ _ _ (times_ms_nonempty _ Ht) Hs).
  simpl. now rewrite times_ms_len.
Qed.

Lemma calc_stats_value (times : list Q) (mn mx md v95 v99 : Q) :
  times <> [] ->
  summary_of (Py.sort_floats times) mn mx md v95 v99 ->
  calc_stats_core times =
  (Py.sort_floats times,
   Ok (mkSimpleStats mn mx
         (statistics.sum (Py.sort_floats times)
          / inject_Z (Py.len (Py.sort_floats times)))
         md v95 v99,
       (IndexArm, IndexArm))).
Proof.
  intros Ht Hs. unfold calc_stats_core.
  now rewrite (simple_dict_ok _ _ _ _ _ _ (sort_floats_nonempty _ Ht) Hs).
Qed.

(** C1. For a non-empty sample list both statistics functions sort the
    samples ascending and report as p95 and p99 the items at index
    [floor (p * n)], which is also the index clamped to [n - 1]. *)
Theorem C1_percentile_rule (times ftimes : list Q) :
  times <> [] -> ftimes <> [] ->
  (exists st,
      calculate_stats times = Ok (Some st)
      /\ Permutation (times_ms_of times) (to_ms times)
      /\ StronglySorted Qle (times_ms_of times)
      /\ nth_error (times_ms_of times)
           (Z.to_nat (Qfloor (inject_Z (Py.len times) * (95 # 100))))
         = Some (p95 st)
      /\ nth_error (times_ms_of times)
           (Z.to_nat (Qfloor (inject_Z (Py.len times) * (99 # 100))))
         = Some (p99 st)
      /\ spec_percentile (times_ms_of times) (95 # 100) = Some (p95 st)
      /\ spec_percentile (times_ms_of times) (99 # 100) = Some (p99 st))
  /\ (exists st,
      snd (calc_stats ftimes) = Ok st
      /\ Permutation (Py.sort_floats ftimes) ftimes
      /\ StronglySorted Qle (Py.sort_floats ftimes)
      /\ nth_error (Py.sort_floats ftimes)
           (Z.to_nat (Qfloor (inject_Z (Py.len ftimes) * (95 # 100))))
         = Some (s_p95 st)
      /\ nth_error (Py.sort_floats ftimes)
           (Z.to_nat (Qfloor (inject_Z (Py.len ftimes) * (99 # 100))))
         = Some (s_p99 st)
      /\ spec_percentile (Py.sort_floats ftimes) (95 # 100) = Some (s_p95 st)
      /\ spec_percentile (Py.sort_floats ftimes) (99 # 100) = Some (s_p99 st)).
Proof.
  intros Ht Hf. split.
  - destruct (summary_exists _ (times_ms_nonempty _ Ht))
      as (mn & mx & md & v95 & v99 & Hs).
    pose proof Hs as (_ & _ & _ & _ & _ & _ & _ & _ & (A1 & A2) & (B1 & B2)).
    eexists. unfold calculate_stats.
    rewrite (calculate_stats_value _ _ _ _ _ _ Ht Hs). simpl.
    split; [reflexivity|].
    split; [apply sort_floats_perm|].
    split; [apply times_ms_sorted|].
    rewrite times_ms_len in A1, B1. tauto.
  - destruct (summary_exists _ (sort_floats_nonempty _ Hf))
      as (mn & mx & md & v95 & v99 & Hs).
    pose proof Hs as (_ & _ & _ & _ & _ & _ & _ & _ & (A1 & A2) & (B1 & B2)).
    eexists. unfold calc_stats.
    rewrite (calc_stats_value _ _ _ _ _ _ Hf Hs). simpl.
    split; [reflexivity|].
    split; [apply sort_floats_perm|].
    split; [apply sort_floats_sorted|].
    unfold Py.len in A1, B1. rewrite sort_floats_length in A1, B1.
    fold (Py.len ftimes) in A1, B1. tauto.
Qed.

Lemma C1_percentile_rule_witness :
  [3000000; 1000000; 2000000] <> [] /\ [3; 1; 2] <> []
  /\ (exists st,
        calculate_stats [3000000; 1000000; 2000000] = Ok (Some st)
        /\ spec_percentile (times_ms_of [3000000; 1000000; 2000000])
             (95 # 100) = Some (p95 st))
  /\ (exists st,
        snd (calc_stats [3; 1; 2]) = Ok st
        /\ spec_percentile (Py.sort_floats [3; 1; 2]) (99 # 100)
           = Some (s_p99 st)).
Proof.
  split; [discriminate|]. split; [discriminate|].
  destruct (C1_percentile_rule [3000000; 1000000; 2000000] [3; 1; 2])
    as [(st & H1 & _ & _ & _ & _ & H2 & _) (st' & H3 & _ & _ & _ & _ & _ & H4)];
    [discriminate | discriminate |].
  split; [exists st | exists st']; split; assumption.
Defined.

(** C2. For a non-empty sample list [calculate_stats] returns a summary
    whose count is the length of the list, with min <= median <= max and
    p95 <= p99. *)
Theorem C2_summary_order (times : list Q) :
  times <> [] ->
  exists st,
    calculate_stats times = Ok (Some st)
    /\ count st = Py.len times
    /\ min st <= median st /\ median st <= max st
    /\ p95 st <= p99 st.
Proof.
  intros Ht.
  destruct (summary_exists _ (times_ms_nonempty _ Ht))
    as (mn & mx & md & v95 & v99 & Hs).
  pose proof (summary_p95_le_p99 _ _ _ _ _ _ (times_ms_sorted times) Hs) as Hp.
  pose proof Hs as (_ & _ & _ & _ & _ & _ & _ & (M1 & M2) & _).
  eexists. unfold calculate_stats.
  rewrite (calculate_stats_value _ _ _ _ _ _ Ht Hs). simpl.
  split; [reflexivity|]. tauto.
Qed.

Lemma C2_summary_order_witness :
  [5000000; 1000000; 3000000; 2000000] <> []
  /\ exists st,
       calculate_stats [5000000; 1000000; 3000000; 2000000] = Ok (Some st)
       /\ count st = 4%Z
       /\ min st <= median st /\ median st <= max st
       /\ p95 st <= p99 st.
Proof.
  split; [discriminate|].
  apply (C2_summary_order [5000000; 1000000; 3000000; 2000000]).
  discriminate.
Defined.

(** C4, as the code has it. On an empty sample set [calculate_stats]
    does not fail: it returns [None], an ordinary return and no exception,
    in place of a summary dictionary; and [None] is returned for the
    empty sample set only. *)
Theorem C4_empty_returns_none (times : list Q) :
  calculate_stats [] = Ok None
  /\ (forall h, calculate_stats_at ([] :: h) 0 = ([] :: h, Ok None))
  /\ (calculate_stats times = Ok None <-> times = []).
Proof.
  split; [reflexivity|]. split; [reflexivity|].
  split.
  - intros H. destruct times as [|t r]; [reflexivity|]. exfalso.
    assert (Ht : t :: r <> []) by discriminate.
    destruct (summary_exists _ (times_ms_nonempty _ Ht))
      as (mn & mx & md & v95 & v99 & Hs).
    unfold calculate_stats in H.
    rewrite (calculate_stats_value _ _ _ _ _ _ Ht Hs) in H.
    discriminate H.
  - intros ->. reflexivity.
Qed.

(** C4 as stated fails: the call on the empty sample set ends in no
    exception at all, it returns normally. *)
Lemma C4_counterexample :
  ~ (exists e, calculate_stats [] = Raise e).
Proof. intros [e H]. discriminate H. Qed.

(** C10. The percentile expressions never index out of bounds and never
    take their else arm: an empty list does not reach them (it is
    returned for before, or [min] raises first), and for [n >= 1] both
    indices lie in [0, n - 1]. *)
Theorem C10_percentile_index_in_bounds (times ftimes : list Q) :
  (times = [] /\ calculate_stats_core times = Ok None
   \/ times <> []
      /\ (0 <= Py.int (inject_Z (Py.len times) * (95 # 100))
          <= Py.len times - 1)%Z
      /\ (0 <= Py.int (inject_Z (Py.len times) * (99 # 100))
          <= Py.len times - 1)%Z
      /\ exists st,
           calculate_stats_core times = Ok (Some (st, (IndexArm, IndexArm))))
  /\ (ftimes = [] /\ snd (calc_stats_core ftimes) = Raise ValueError
      \/ ftimes <> []
         /\ (0 <= Py.int (inject_Z (Py.len ftimes) * (95 # 100))
             <= Py.len ftimes - 1)%Z
         /\ (0 <= Py.int (inject_Z (Py.len ftimes) * (99 # 100))
             <= Py.len ftimes - 1)%Z
         /\ exists st,
              snd (calc_stats_core ftimes) = Ok (st, (IndexArm, IndexArm))).
Proof.
  assert (B : forall (A : Type) (l : list A) (p : Q),
             l <> [] -> 0 <= p -> p < 1 ->
             (0 <= Py.int (inject_Z (Py.len l) * p) <= Py.len l - 1)%Z).
  { intros A l p Hl H0 H1. pose proof (len_pos l Hl) as Hn.
    rewrite int_scale_floor by (assumption || lia).
    now apply floor_scale_range. }
  split.
  - destruct times as [|t r] eqn:E; [left; split; reflexivity|].
    right. rewrite <- E. assert (Ht : times <> []) by (subst; discriminate).
    split; [exact Ht|].
    split; [apply B; [exact Ht | discriminate | reflexivity]|].
    split; [apply B; [exact Ht | discriminate | reflexivity]|].
    destruct (summary_exists _ (times_ms_nonempty _ Ht))
      as (mn & mx & md & v95 & v99 & Hs).
    eexists. apply (calculate_stats_value _ _ _ _ _ _ Ht Hs).
  - destruct ftimes as [|t r] eqn:E; [left; split; reflexivity|].
    right. rewrite <- E. assert (Ht : ftimes <> []) by (subst; discriminate).
    split; [exact Ht|].
    split; [apply B; [exact Ht | discriminate | reflexivity]|].
    split; [apply B; [exact Ht | discriminate | reflexivity]|].
    destruct (summary_exists _ (sort_floats_nonempty _ Ht))
      as (mn & mx & md & v95 & v99 & Hs).
    eexists. rewrite (calc_stats_value _ _ _ _ _ _ Ht Hs). reflexivity.
Qed.

(** * The standard deviation *)

Lemma len_ge_2_nonempty {A : Type} (l : list A) :
  (2 <= Py.len l)%Z -> l <> [].
Proof. destruct l; [unfold Py.len; simpl; lia | discriminate]. Qed.

Lemma Qdiv_mul_cancel (x : Q) (n : Z) :
  (0 < n)%Z -> x / inject_Z n * inject_Z n == x.
Proof.
  intros Hn. rewrite Qmult_comm. apply Qmult_div_r.
  intro E. unfold Qeq in E. simpl in E. lia.
Qed.

(** C3, as the code has it. For n >= 2 the reported standard deviation is
    the one of [statistics.stdev], the sample standard deviation: its
    square times [n - 1] is the sum of the squared deviations from the
    mean, where the population variance is that sum divided by [n]. *)
Theorem C3_sample_standard_deviation (times : list Q) :
  (2 <= Py.len times)%Z ->
  exists st v pv,
    calculate_stats times = Ok (Some st)
    /\ statistics.stdev (times_ms_of times) = Ok (stddev st)
    /\ stddev st = statistics.Sqrt v
    /\ v * inject_Z (Py.len times - 1)
       == statistics.ss (times_ms_of times) (avg st)
    /\ statistics.pvariance (times_ms_of times) = Ok pv
    /\ pv * inject_Z (Py.len times)
       == statistics.ss (times_ms_of times) (avg st).
Proof.
  intros Hn. pose proof (len_ge_2_nonempty _ Hn) as Ht.
  pose proof (times_ms_nonempty _ Ht) as Hs.
  destruct (summary_exists _ Hs) as (mn & mx & md & v95 & v99 & Hsum).
  pose proof (times_ms_len times) as Hl.
  assert (E1 : (Py.len (times_ms_of times) >? 1)%Z = true).
  { rewrite Hl, Z.gtb_ltb. apply Z.ltb_lt. lia. }
  assert (E2 : (Py.len (times_ms_of times) <? 2)%Z = false).
  { rewrite Hl. apply Z.ltb_ge. lia. }
  assert (E3 : (Py.len (times_ms_of times) <? 1)%Z = false).
  { rewrite Hl. apply Z.ltb_ge. lia. }
  eexists. eexists. eexists. unfold calculate_stats.
  rewrite (calculate_stats_value _ _ _ _ _ _ Ht Hsum). simpl.
  split; [reflexivity|].
  unfold stddev_of. rewrite E1.
  unfold statistics.stdev, statistics.variance, statistics.pvariance.
  rewrite E2, E3, (mean_spec _ Hs). simpl.
  split; [reflexivity|]. split; [reflexivity|].
  rewrite Hl.
  split; [apply Qdiv_mul_cancel; lia|].
  split; [reflexivity|]. apply Qdiv_mul_cancel. lia.
Qed.

Lemma C3_sample_standard_deviation_witness :
  (2 <= Py.len [0; 2000000])%Z
  /\ exists st v pv,
       calculate_stats [0; 2000000] = Ok (Some st)
       /\ statistics.stdev (times_ms_of [0; 2000000]) = Ok (stddev st)
       /\ stddev st = statistics.Sqrt v
       /\ v * inject_Z (Py.len [0; 2000000] - 1)
          == statistics.ss (times_ms_of [0; 2000000]) (avg st)
       /\ statistics.pvariance (times_ms_of [0; 2000000]) = Ok pv
       /\ pv * inject_Z (Py.len [0; 2000000])
          == statistics.ss (times_ms_of [0; 2000000]) (avg st).
Proof.
  split; [vm_compute; discriminate|].
  apply (C3_sample_standard_deviation [0; 2000000]).
  vm_compute. discriminate.
Defined.

(** C3 as stated fails: on the samples 0 ns and 2000000 ns (0 ms and
    2 ms) the reported standard deviation is the root of 2, the population
    standard deviation is the root of 1. *)
Lemma C3_counterexample :
  ~ (forall st pop,
       calculate_stats [0; 2000000] = Ok (Some st) ->
       statistics.pstdev (times_ms_of [0; 2000000]) = Ok pop ->
       statistics.Surd_eq (stddev st) pop).
Proof.
  intros H.
  specialize (H _ _ eq_refl eq_refl).
  vm_compute in H. discriminate.
Qed.

(** * Mutation of the argument *)

(** C6, as the code has it. [calculate_stats] leaves every list that
    existed before the call as it was, its argument included: the list it
    sorts is a new one.  [calc_stats] sorts its argument in place: after
    the call the argument holds the same items in ascending order, and no
    other list has changed. *)
Theorem C6_argument_after_the_call (h : Heap.t) (times : nat) :
  (times < List.length h)%nat ->
  (forall b, (b < List.length h)%nat ->
             Heap.get (fst (calculate_stats_at h times)) b = Heap.get h b)
  /\ Heap.get (fst (calc_stats_at h times)) times
     = Py.sort_floats (Heap.get h times)
  /\ Permutation (Heap.get (fst (calc_stats_at h times)) times)
       (Heap.get h times)
  /\ StronglySorted Qle (Heap.get (fst (calc_stats_at h times)) times)
  /\ (forall b, b <> times ->
                Heap.get (fst (calc_stats_at h times)) b = Heap.get h b).
Proof.
  intros Ha.
  assert (E : Heap.get (fst (calc_stats_at h times)) times
              = Py.sort_floats (Heap.get h times)).
  { unfold calc_stats_at, Heap.sort_at. simpl.
    now apply get_update_same. }
  split.
  - intros b Hb.
    destruct (calculate_stats_at_heap h times) as [-> | ->]; [reflexivity|].
    unfold Heap.sort_at. rewrite get_update_other by lia.
    exact (get_alloc_old h _ b Hb).
  - split; [exact E|]. rewrite E.
    split; [apply sort_floats_perm|].
    split; [apply sort_floats_sorted|].
    intros b Hb. unfold calc_stats_at, Heap.sort_at. simpl.
    apply get_update_other. congruence.
Qed.

Lemma C6_argument_after_the_call_witness :
  (0 < List.length [[2; 1]; [7; 5]])%nat
  /\ (forall b, (b < List.length [[2; 1]; [7; 5]])%nat ->
        Heap.get (fst (calculate_stats_at [[2; 1]; [7; 5]] 0)) b
        = Heap.get [[2; 1]; [7; 5]] b)
  /\ Heap.get (fst (calc_stats_at [[2; 1]; [7; 5]] 0)) 0
     = Py.sort_floats (Heap.get [[2; 1]; [7; 5]] 0).
Proof.
  split; [simpl; lia|].
  destruct (C6_argument_after_the_call [[2; 1]; [7; 5]] 0) as (H1 & H2 & _);
    [simpl; lia|].
  split; assumption.
Defined.

(** C6 as stated fails for [calc_stats]: given the list [2, 1] it leaves
    [1, 2] in its place. *)
Lemma C6_counterexample :
  Heap.get (fst (calc_stats_at [[2; 1]] 0)) 0 = [1; 2]
  /\ Heap.get (fst (calc_stats_at [[2; 1]] 0)) 0 <> Heap.get [[2; 1]] 0
  /\ fst (calc_stats [2; 1]) <> [2; 1].
Proof.
  split; [reflexivity|]. split; vm_compute; discriminate.
Qed.

(** * The ranking *)

Lemma ranks_before_le (a b : string * Q) :
  snd a <= snd b -> String.leb (fst a) (fst b) = true -> ranks_before a b.
Proof.
  intros Hle Hlab. unfold ranks_before.
  destruct (Qle_lt_or_eq _ _ Hle) as [Hlt | Heq]; [now left | now right].
Qed.

Lemma ranks_before_lt (a b : string * Q) : snd a < snd b -> ranks_before a b.
Proof. intros H. now left. Qed.

Lemma sorted_three {A : Type} (R : A -> A -> Prop) (a b c : A) :
  R a b -> R a c -> R b c -> StronglySorted R [a; b; c].
Proof.
  intros Hab Hac Hbc.
  constructor; [constructor; [constructor; constructor|] |]; auto.
Qed.

Lemma napi_lt_wasi : napi_avg_ops < wasi_avg_ops.
Proof. reflexivity. Qed.

(** C8. The ranking is a function of the means, it is ascending by mean,
    and of two adapters with equal means the one with the smaller label
    comes first. *)
Theorem C8_ranking_order (operation_avg : Q) :
  StronglySorted ranks_before (ranking operation_avg)
  /\ Permutation (ranking operation_avg) (results_list operation_avg).
Proof.
  split; [|apply sort_perm].
  pose proof napi_lt_wasi as HNW.
  assert (EWN : Py.ltb wasi_avg_ops napi_avg_ops = false).
  { apply ltb_false. apply Qlt_le_weak, HNW. }
  unfold ranking, results_list, Py.sort.
  cbn [fold_right Py.insert snd].
  destruct (Py.ltb wasi_avg_ops operation_avg) eqn:E1;
    cbn [fold_right Py.insert snd].
  - apply ltb_true in E1. rewrite EWN.
    apply sorted_three; apply ranks_before_lt; simpl;
      [exact HNW | eapply Qlt_trans; eassumption | exact E1].
  - apply ltb_false in E1.
    destruct (Py.ltb operation_avg napi_avg_ops) eqn:E2;
      cbn [fold_right Py.insert snd].
    + apply ltb_true in E2. rewrite EWN.
      apply sorted_three; apply ranks_before_lt; simpl;
        [exact E2 | eapply Qlt_trans; eassumption | exact HNW].
    + apply ltb_false in E2.
      apply sorted_three.
      * apply ranks_before_le; [exact E2 | reflexivity].
      * apply ranks_before_lt. exact HNW.
      * apply ranks_before_le; [exact E1 | reflexivity].
Qed.

(** * The ratios *)

Lemma min3_spec (a b c : Q) :
  let m := Py.min3 a b c in
  (m = a \/ m = b \/ m = c) /\ m <= a /\ m <= b /\ m <= c.
Proof.
  unfold Py.min3.
  destruct (Py.ltb b a) eqn:E1;
    [apply ltb_true in E1 | apply ltb_false in E1].
  - destruct (Py.ltb c b) eqn:E2;
      [apply ltb_true in E2 | apply ltb_false in E2];
      (split; [tauto|]); repeat split; lra.
  - destruct (Py.ltb c a) eqn:E2;
      [apply ltb_true in E2 | apply ltb_false in E2];
      (split; [tauto|]); repeat split; lra.
Qed.

Lemma truediv_pos (x y : Q) : 0 < y -> Py.truediv x y = Ok (x / y).
Proof.
  intros Hy. unfold Py.truediv.
  destruct (Qeq_bool y 0) eqn:E; [|reflexivity].
  apply Qeq_bool_eq in E. lra.
Qed.

Lemma ratio_ge_1 (x m : Q) : 0 < m -> m <= x -> 1 <= x / m.
Proof. intros Hm Hx. apply Qle_shift_div_l; [exact Hm | lra]. Qed.

Lemma ratio_eq_1 (x m : Q) : 0 < m -> x == m -> x / m == 1.
Proof. intros Hm Hx. rewrite Hx. field. lra. Qed.

Lemma ratios_ok (python napi wasi : Q) :
  0 < python -> 0 < napi -> 0 < wasi ->
  exists r, ratios python napi wasi = Ok r.
Proof.
  intros Hp Hn Hw.
  destruct (min3_spec python napi wasi) as (Hin & _).
  assert (Hm : 0 < Py.min3 python napi wasi)
    by (destruct Hin as [-> | [-> | ->]]; assumption).
  unfold ratios. rewrite !truediv_pos by exact Hm. simpl. eauto.
Qed.

(** C5, as the code has it. For strictly positive means each ratio is the
    adapter's mean divided by the smallest mean; it is at least 1, and it
    is 1 for an adapter whose mean is the smallest. *)
Theorem C5_ratio_to_fastest (python napi wasi : Q) :
  0 < python -> 0 < napi -> 0 < wasi ->
  exists rp rn rw,
    ratios python napi wasi = Ok (rp, rn, rw)
    /\ (Py.min3 python napi wasi = python
        \/ Py.min3 python napi wasi = napi
        \/ Py.min3 python napi wasi = wasi)
    /\ (Py.min3 python napi wasi <= python
        /\ Py.min3 python napi wasi <= napi
        /\ Py.min3 python napi wasi <= wasi)
    /\ (rp = python / Py.min3 python napi wasi
        /\ rn = napi / Py.min3 python napi wasi
        /\ rw = wasi / Py.min3 python napi wasi)
    /\ (1 <= rp /\ 1 <= rn /\ 1 <= rw)
    /\ (python == Py.min3 python napi wasi -> rp == 1)
    /\ (napi == Py.min3 python napi wasi -> rn == 1)
    /\ (wasi == Py.min3 python napi wasi -> rw == 1).
Proof.
  intros Hp Hn Hw.
  destruct (min3_spec python napi wasi) as (Hin & H1 & H2 & H3).
  set (m := Py.min3 python napi wasi) in *.
  assert (Hm : 0 < m) by (destruct Hin as [-> | [-> | ->]]; assumption).
  exists (python / m), (napi / m), (wasi / m).
  unfold ratios. fold m. rewrite !truediv_pos by exact Hm. simpl.
  split; [reflexivity|]. split; [exact Hin|]. split; [tauto|].
  split; [tauto|].
  split; [repeat split; apply ratio_ge_1; assumption|].
  repeat split; apply ratio_eq_1; assumption.
Qed.

Lemma C5_ratio_to_fastest_witness :
  0 < 2 /\ 0 < 3 /\ 0 < wasi_startup_avg
  /\ exists rp rn rw,
       ratios 2 3 wasi_startup_avg = Ok (rp, rn, rw)
       /\ (1 <= rp /\ 1 <= rn /\ 1 <= rw)
       /\ (wasi_startup_avg == Py.min3 2 3 wasi_startup_avg -> rw == 1).
Proof.
  split; [reflexivity|]. split; [reflexivity|]. split; [reflexivity|].
  destruct (C5_ratio_to_fastest 2 3 wasi_startup_avg)
    as (rp & rn & rw & H1 & _ & _ & _ & H2 & _ & _ & H3);
    [reflexivity | reflexivity | reflexivity |].
  exists rp, rn, rw. tauto.
Defined.

(** C5 as stated fails: when the smallest mean is 0 the division raises
    and no ratio, in particular no ratio 1, is computed. *)
Lemma C5_counterexample :
  ratios 0 1 wasi_startup_avg = Raise ZeroDivisionError
  /\ ~ (exists rp rn rw,
          ratios 0 1 wasi_startup_avg = Ok (rp, rn, rw) /\ rp == 1).
Proof.
  split; [reflexivity|].
  intros (rp & rn & rw & H & _). vm_compute in H. discriminate.
Qed.

(** * The report when an adapter is missing *)

Open Scope string_scope.

(** C7, as the code has it. When the results of one adapter are absent
    ([None]) and the Node.js results are not an error dictionary, [main]
    runs to its end; the report lists the file size of the absent adapter
    as N/A and the sizes of the others, and it holds no line of timings:
    the comparison is printed only when both results are present. *)
Theorem C7_report_with_missing_adapter (PYTHON_AVAILABLE : bool)
    (run_benchmark : option PythonResults)
    (run_nodejs_benchmark : option NodeResults) :
  (if PYTHON_AVAILABLE then run_benchmark else None) = None
  \/ run_nodejs_benchmark = None ->
  (forall message, run_nodejs_benchmark <> Some (NapiError message)) ->
  exists out napi_kb,
    main PYTHON_AVAILABLE run_benchmark run_nodejs_benchmark = (out, Ok tt)
    /\ node_size run_nodejs_benchmark = Ok napi_kb
    /\ In (FileSize "Python (.so)"
             (option_map py_file_size_kb
                (if PYTHON_AVAILABLE then run_benchmark else None))) out
    /\ In (FileSize "NAPI (.node)" napi_kb) out
    /\ In (FileSize "WASI (.wasm)" (Some 50%Z)) out
    /\ filter shows_timings out = [].
Proof.
  intros Hmiss Hnode. unfold main.
  destruct (if PYTHON_AVAILABLE then run_benchmark else None) as [p|];
    destruct run_nodejs_benchmark as [[s o kb | message]|];
    try (exfalso; now apply (Hnode message));
    try (destruct Hmiss; discriminate);
    eexists; eexists; (split; [reflexivity|]); (split; [reflexivity|]);
    simpl; tauto.
Qed.

Lemma C7_report_with_missing_adapter_witness :
  ((if false then None else None) = (None : option PythonResults)
   \/ Some (NapiData sample_node_stats sample_node_stats 607) = None)
  /\ (forall message,
        Some (NapiData sample_node_stats sample_node_stats 607)
        <> Some (NapiError message))
  /\ exists out napi_kb,
       main false None
         (Some (NapiData sample_node_stats sample_node_stats 607))
       = (out, Ok tt)
       /\ node_size (Some (NapiData sample_node_stats sample_node_stats 607))
          = Ok napi_kb
       /\ In (FileSize "Python (.so)" None) out
       /\ In (FileSize "NAPI (.node)" napi_kb) out
       /\ In (FileSize "WASI (.wasm)" (Some 50%Z)) out
       /\ filter shows_timings out = [].
Proof.
  split; [left; reflexivity|]. split; [discriminate|].
  apply (C7_report_with_missing_adapter false None
           (Some (NapiData sample_node_stats sample_node_stats 607)));
    [left; reflexivity | discriminate].
Defined.

(** C7 as stated fails: with the Python binding unavailable and the NAPI
    benchmark delivering its measurements, the run completes and marks
    Python as N/A, but no line of the report shows a timing: the results
    of the NAPI adapter are left out. *)
Lemma C7_counterexample :
  let out :=
    main false None (Some (NapiData sample_node_stats sample_node_stats 607))
  in
  snd out = Ok tt
  /\ In (FileSize "Python (.so)" None) (fst out)
  /\ ~ (exists l, In l (fst out) /\ shows_timings l = true).
Proof.
  cbv zeta. split; [reflexivity|]. split; [simpl; tauto|].
  intros (l & Hin & Hl). simpl in Hin.
  repeat (destruct Hin as [<- | Hin]; [discriminate Hl|]).
  exact Hin.
Qed.

(** An error dictionary from the Node.js script ends the run with
    [KeyError], whatever the Python results are. *)
Lemma main_error_dictionary (PYTHON_AVAILABLE : bool)
    (run_benchmark : option PythonResults) (message : string) :
  snd (main PYTHON_AVAILABLE run_benchmark (Some (NapiError message)))
  = Raise KeyError.
Proof. destruct PYTHON_AVAILABLE, run_benchmark; reflexivity. Qed.

(** With both results present and positive means the comparison is part
    of the report. *)
Lemma main_both_present (st_s st_o : Stats) (n_s n_o : NodeStats) (kb : Z) :
  0 < avg st_s -> 0 < n_avg n_s -> 0 < avg st_o -> 0 < n_avg n_o ->
  exists out,
    main true (Some (mkPythonResults (Some st_s) (Some st_o) 681))
      (Some (NapiData n_s n_o kb)) = (out, Ok tt)
    /\ In (Row "startup" "Average" (avg st_s) (n_avg n_s) wasi_startup_avg
             (fastest_name (avg st_s) (n_avg n_s) wasi_startup_avg)) out
    /\ In (Row "operations" "Average" (avg st_o) (n_avg n_o) wasi_ops_avg
             (fastest_name (avg st_o) (n_avg n_o) wasi_ops_avg)) out.
Proof.
  intros H1 H2 H3 H4.
  destruct (ratios_ok (avg st_s) (n_avg n_s) wasi_startup_avg)
    as (rs & Hrs); [assumption | assumption | reflexivity |].
  destruct (ratios_ok (avg st_o) (n_avg n_o) wasi_ops_avg)
    as (ro & Hro); [assumption | assumption | reflexivity |].
  unfold main, print_comprehensive_results, print_comparison.
  simpl. rewrite Hrs. simpl. rewrite Hro. simpl.
  eexists. split; [reflexivity|]. simpl. tauto.
Qed.

Close Scope string_scope.

(** * The timer *)

Section TimerFacts.
Variable perf_counter_ns : nat -> Z.
Hypothesis clock_monotonic : monotonic perf_counter_ns.
Context {R : Type}.

Lemma measure_time_ns_nonneg (func : Res R) (k k' : nat)
    (m : Measurement R) :
  measure_time_ns perf_counter_ns func k = (k', Ok m) ->
  (0 <= time_ns m)%Z.
Proof.
  unfold measure_time_ns. destruct func as [r | e]; [|discriminate].
  intros E. injection E as _ <-. simpl.
  pose proof (clock_monotonic k (S k) ltac:(lia)). lia.
Qed.

Lemma append_sample_nonneg (s : Scenario) (self : PythonBenchmark) (t : Z) :
  nonneg_samples self -> (0 <= t)%Z ->
  nonneg_samples (append_sample s self t).
Proof.
  intros [H1 H2] Ht. destruct s; split; simpl; auto;
    apply Forall_app; split; auto.
Qed.

Lemma benchmark_loop_nonneg (s : Scenario) (test : nat -> Res R)
    (todo : nat) :
  forall (i k : nat) (self : PythonBenchmark),
    nonneg_samples self ->
    nonneg_samples
      (snd (fst (benchmark_loop perf_counter_ns s test todo i k self))).
Proof.
  induction todo as [|todo IH]; intros i k self Hself; simpl.
  - exact Hself.
  - destruct (measure_time_ns perf_counter_ns (test i) k) as [k' [m | e]]
      eqn:E; simpl.
    + apply IH. apply append_sample_nonneg; [exact Hself|].
      eapply measure_time_ns_nonneg; exact E.
    + exact Hself.
Qed.

(** When no test raises, every iteration records one sample. *)
Lemma benchmark_loop_length (test : nat -> Res R) (todo : nat) :
  (forall i, exists r, test i = Ok r) ->
  forall (i k : nat) (self : PythonBenchmark),
    snd (benchmark_loop perf_counter_ns Startup test todo i k self) = Ok tt
    /\ List.length
         (results_startup
            (snd (fst (benchmark_loop perf_counter_ns Startup test todo
                         i k self))))
       = (List.length (results_startup self) + todo)%nat.
Proof.
  intros Hok. induction todo as [|todo IH]; intros i k self; simpl.
  - split; [reflexivity | lia].
  - destruct (Hok i) as [r Hr]. unfold measure_time_ns. rewrite Hr.
    cbv beta iota zeta. cbn [time_ns].
    destruct (IH (S i) (S (S k))
                (append_sample Startup self
                   (perf_counter_ns (S k) - perf_counter_ns k)%Z))
      as [H1 H2].
    simpl in H1, H2.
    split; [exact H1|]. rewrite H2, length_app. simpl. lia.
Qed.
End TimerFacts.

(** C9. With a monotonic clock every measured duration is non-negative,
    and so is every sample the two benchmark loops append: starting from
    the empty lists of [__init__], all recorded samples are >= 0. *)
Theorem C9_samples_nonnegative (perf_counter_ns : nat -> Z) (R : Type)
    (startup_test operation_test : nat -> Res R)
    (iterations iterations' k : nat) :
  monotonic perf_counter_ns ->
  (forall func j,
      match snd (measure_time_ns perf_counter_ns (func : Res R) j) with
      | Ok m => (0 <= time_ns m)%Z
      | Raise _ => True
      end)
  /\ (let after_startup :=
        fst (benchmark_python_startup perf_counter_ns startup_test
               iterations k PythonBenchmark_init) in
      let after_operations :=
        fst (benchmark_python_operations perf_counter_ns operation_test
               iterations' (fst after_startup) (snd after_startup)) in
      nonneg_samples (snd after_startup)
      /\ nonneg_samples (snd after_operations)).
Proof.
  intros Hmono. split.
  - intros func j.
    destruct (measure_time_ns perf_counter_ns func j) as [k' [m | e]] eqn:E;
      simpl; [|exact I].
    eapply measure_time_ns_nonneg; eassumption.
  - cbv zeta.
    assert (H0 : nonneg_samples PythonBenchmark_init)
      by (split; constructor).
    pose proof (benchmark_loop_nonneg perf_counter_ns Hmono Startup
                  startup_test iterations 0 k _ H0) as H1.
    split; [exact H1|].
    apply (benchmark_loop_nonneg perf_counter_ns Hmono). exact H1.
Qed.

Lemma C9_samples_nonnegative_witness :
  monotonic sample_clock
  /\ results_startup
       (snd (fst (benchmark_python_startup sample_clock
                    (fun _ => Ok tt) 3 0 PythonBenchmark_init)))
     = [1000; 1000; 1000]%Z
  /\ nonneg_samples
       (snd (fst (benchmark_python_startup sample_clock
                    (fun _ => Ok tt) 3 0 PythonBenchmark_init))).
Proof.
  assert (Hm : monotonic sample_clock).
  { unfold monotonic, sample_clock. intros i j Hij. lia. }
  split; [exact Hm|]. split; [reflexivity|].
  exact (proj1 (proj2 (C9_samples_nonnegative sample_clock unit
                         (fun _ => Ok tt) (fun _ => Ok tt) 3 2 0 Hm))).
Defined.

(** * More about the summary *)

Lemma floor_scale_eq (n a : Z) (b : positive) :
  Qfloor (inject_Z n * (a # b)) = (n * a / Zpos b)%Z.
Proof. reflexivity. Qed.

Lemma sum_bounds (l : list Q) (lo hi : Q) :
  Forall (fun x => lo <= x /\ x <= hi) l ->
  lo * inject_Z (Py.len l) <= statistics.sum l
  /\ statistics.sum l <= hi * inject_Z (Py.len l).
Proof.
  induction 1 as [|x l [Hlo Hhi] _ [IH1 IH2]].
  - unfold Py.len. simpl. change (inject_Z 0) with 0. split; lra.
  - assert (E : inject_Z (Py.len (x :: l)) == 1 + inject_Z (Py.len l)).
    { unfold Py.len. simpl List.length. rewrite Nat2Z.inj_succ.
      unfold Z.succ. rewrite inject_Z_plus. change (inject_Z 1) with 1.
      ring. }
    simpl statistics.sum. rewrite E. split; lra.
Qed.

Lemma mean_between (l : list Q) (lo hi : Q) :
  l <> [] -> Forall (fun x => lo <= x /\ x <= hi) l ->
  lo <= statistics.sum l / inject_Z (Py.len l)
  /\ statistics.sum l / inject_Z (Py.len l) <= hi.
Proof.
  intros Hl Hall. destruct (sum_bounds l lo hi Hall) as [H1 H2].
  assert (Hn : 0 < inject_Z (Py.len l)).
  { change 0 with (inject_Z 0). rewrite <- Zlt_Qlt.
    pose proof (len_pos l Hl). lia. }
  split.
  - apply Qle_shift_div_l; assumption.
  - apply Qle_shift_div_r; assumption.
Qed.

Lemma sorted_floats_fixed (s : list Q) :
  StronglySorted Qle s -> Py.sort_floats s = s.
Proof. intros H. exact (sort_of_sorted (fun x => x) s H). Qed.

(** The median of a sorted list is not above any item of its upper
    half. *)
Lemma median_le_upper (s : list Q) (md v : Q) (j : Z) :
  StronglySorted Qle s -> s <> [] ->
  statistics.median s = Ok md ->
  (Py.len s / 2 <= j)%Z -> nth_error s (Z.to_nat j) = Some v ->
  md <= v.
Proof.
  intros Hs Hne Hmd Hj Hv. unfold statistics.median in Hmd.
  rewrite (sorted_floats_fixed s Hs) in Hmd.
  pose proof (len_pos s Hne) as Hn.
  assert (Hh : (0 <= Py.len s / 2 < Py.len s)%Z).
  { split; [apply Z.div_pos; lia | apply Z.div_lt; lia]. }
  destruct (Py.len s =? 0)%Z eqn:E0; [apply Z.eqb_eq in E0; lia|].
  destruct (getitem_ok s (Py.len s / 2)%Z Hh) as (b & Hb & Hbn).
  assert (Hbv : b <= v).
  { assert (Hle : (Z.to_nat (Py.len s / 2) <= Z.to_nat j)%nat) by lia.
    exact (sorted_nth_le s Hs _ _ _ _ Hle Hbn Hv). }
  destruct (Py.len s mod 2 =? 1)%Z eqn:E1.
  - rewrite Hb in Hmd. injection Hmd as <-. exact Hbv.
  - apply Z.eqb_neq in E1.
    assert (Hh' : (0 <= Py.len s / 2 - 1 < Py.len s)%Z).
    { pose proof (Z.div_mod (Py.len s) 2 ltac:(lia)).
      pose proof (Z.mod_pos_bound (Py.len s) 2 ltac:(lia)). lia. }
    destruct (getitem_ok s _ Hh') as (a & Ha & Han).
    rewrite Ha, Hb in Hmd. simpl in Hmd. injection Hmd as <-.
    assert (Hab : a <= b).
    { assert (Hle : (Z.to_nat (Py.len s / 2 - 1)
                     <= Z.to_nat (Py.len s / 2))%nat) by lia.
      exact (sorted_nth_le s Hs _ _ _ _ Hle Han Hbn). }
    apply Qle_shift_div_r; [reflexivity | lra].
Qed.

(** X1. In the summary of a non-empty sample list
    min <= median <= p95 <= p99 <= max and min <= avg <= max. *)
Theorem X1_summary_chain (times : list Q) :
  times <> [] ->
  exists st,
    calculate_stats times = Ok (Some st)
    /\ min st <= median st /\ median st <= p95 st
    /\ p95 st <= p99 st /\ p99 st <= max st
    /\ min st <= avg st /\ avg st <= max st.
Proof.
  intros Ht. pose proof (times_ms_nonempty _ Ht) as Hne.
  destruct (summary_exists _ Hne) as (mn & mx & md & v95 & v99 & Hs).
  pose proof (summary_p95_le_p99 _ _ _ _ _ _ (times_ms_sorted times) Hs) as Hp.
  pose proof Hs as (_ & _ & Hmd & _ & _ & (_ & Hmn) & (_ & Hmx) & (M1 & _)
                    & (H95 & _) & (H99 & _)).
  eexists. unfold calculate_stats.
  rewrite (calculate_stats_value _ _ _ _ _ _ Ht Hs). simpl.
  split; [reflexivity|]. split; [exact M1|].
  split.
  { eapply (median_le_upper _ _ _ _ (times_ms_sorted times) Hne Hmd);
      [|exact H95].
    rewrite floor_scale_eq. apply Z.div_le_lower_bound; [lia|].
    pose proof (Z.mul_div_le (Py.len (times_ms_of times)) 2 ltac:(lia)).
    pose proof (len_pos _ Hne). lia. }
  split; [exact Hp|].
  split.
  { apply nth_error_In in H99. rewrite Forall_forall in Hmx. now apply Hmx. }
  apply mean_between; [exact Hne|].
  rewrite Forall_forall in *. intros x Hx. split; auto.
Qed.

Lemma X1_summary_chain_witness :
  [4000000; 1000000; 3000000] <> []
  /\ exists st,
       calculate_stats [4000000; 1000000; 3000000] = Ok (Some st)
       /\ min st <= median st /\ median st <= p95 st
       /\ p95 st <= p99 st /\ p99 st <= max st
       /\ min st <= avg st /\ avg st <= max st.
Proof.
  split; [discriminate|].
  apply (X1_summary_chain [4000000; 1000000; 3000000]). discriminate.
Defined.

(** The smallest item of a sorted list is its first, the largest equals
    its last. *)
Lemma min_of_sorted (x : Q) (r : list Q) :
  StronglySorted Qle (x :: r) -> Py.min (x :: r) = Ok x.
Proof.
  intros Hs. inversion Hs as [|? ? _ Hall]; subst. simpl. f_equal.
  clear Hs. induction r as [|y r IH]; simpl; [reflexivity|].
  inversion Hall as [|? ? Hxy Hall']; subst.
  apply ltb_false in Hxy. rewrite Hxy. now apply IH.
Qed.

Lemma last_is_largest (s : list Q) (v : Q) :
  StronglySorted Qle s ->
  nth_error s (Z.to_nat (Py.len s - 1)) = Some v ->
  Forall (fun x => x <= v) s.
Proof.
  intros Hs Hv. apply Forall_forall. intros x Hx.
  apply In_nth_error in Hx. destruct Hx as [i Hi].
  apply (sorted_nth_le s Hs i _ _ _) with (2 := Hi) (3 := Hv).
  assert (i < List.length s)%nat by (apply nth_error_Some; congruence).
  unfold Py.len. lia.
Qed.

(** X3. The minimum of the summary is the first item of the sorted
    samples, the maximum equals their last item. *)
Theorem X3_min_max_are_the_ends (times : list Q) :
  times <> [] ->
  exists st last,
    calculate_stats times = Ok (Some st)
    /\ nth_error (times_ms_of times) 0 = Some (min st)
    /\ nth_error (times_ms_of times) (Z.to_nat (Py.len times - 1)) = Some last
    /\ max st == last.
Proof.
  intros Ht. pose proof (times_ms_nonempty _ Ht) as Hne.
  destruct (summary_exists _ Hne) as (mn & mx & md & v95 & v99 & Hs).
  pose proof Hs as (Hmin & _ & _ & _ & _ & _ & (Hmx_in & Hmx) & _).
  pose proof (times_ms_sorted times) as Hsorted.
  pose proof (len_pos _ Hne) as Hn.
  destruct (getitem_ok (times_ms_of times) (Py.len (times_ms_of times) - 1))
    as (last & _ & Hlast); [lia|].
  exists (mkStats (Py.len times) mn mx
            (statistics.sum (times_ms_of times)
             / inject_Z (Py.len (times_ms_of times)))
            md v95 v99 (stddev_of (times_ms_of times))), last.
  unfold calculate_stats.
  rewrite (calculate_stats_value _ _ _ _ _ _ Ht Hs). simpl.
  split; [reflexivity|].
  split.
  { destruct (times_ms_of times) as [|x r] eqn:E; [congruence|].
    rewrite (min_of_sorted x r Hsorted) in Hmin. injection Hmin as <-.
    reflexivity. }
  rewrite <- (times_ms_len times). split; [exact Hlast|].
  apply Qle_antisym.
  - pose proof (last_is_largest _ _ Hsorted Hlast) as Hl.
    rewrite Forall_forall in Hl. now apply Hl.
  - apply nth_error_In in Hlast. rewrite Forall_forall in Hmx.
    now apply Hmx.
Qed.

Lemma X3_min_max_are_the_ends_witness :
  [4000000; 1000000; 3000000] <> []
  /\ exists st last,
       calculate_stats [4000000; 1000000; 3000000] = Ok (Some st)
       /\ nth_error (times_ms_of [4000000; 1000000; 3000000]) 0
          = Some (min st)
       /\ nth_error (times_ms_of [4000000; 1000000; 3000000])
            (Z.to_nat (Py.len [4000000; 1000000; 3000000] - 1)) = Some last
       /\ max st == last.
Proof.
  split; [discriminate|].
  apply (X3_min_max_are_the_ends [4000000; 1000000; 3000000]). discriminate.
Defined.

(** X2. With at most 20 samples p95 equals the maximum, with at most 100
    samples p99 equals the maximum: the index [int(n * p)] is then
    [n - 1]. *)
Theorem X2_small_sets_collapse (times : list Q) :
  times <> [] ->
  exists st,
    calculate_stats times = Ok (Some st)
    /\ ((Py.len times <= 20)%Z -> p95 st == max st)
    /\ ((Py.len times <= 100)%Z -> p99 st == max st).
Proof.
  intros Ht. pose proof (times_ms_nonempty _ Ht) as Hne.
  destruct (summary_exists _ Hne) as (mn & mx & md & v95 & v99 & Hs).
  pose proof Hs as (_ & _ & _ & _ & _ & _ & (Hmx_in & Hmx) & _
                    & (H95 & _) & (H99 & _)).
  pose proof (times_ms_sorted times) as Hsorted.
  pose proof (len_pos _ Hne) as Hn.
  pose proof (times_ms_len times) as Hl.
  assert (Hlast : forall v i,
            nth_error (times_ms_of times) (Z.to_nat i) = Some v ->
            i = (Py.len (times_ms_of times) - 1)%Z -> v == mx).
  { intros v i Hv ->. apply Qle_antisym.
    - apply nth_error_In in Hv. rewrite Forall_forall in Hmx. now apply Hmx.
    - pose proof (last_is_largest _ _ Hsorted Hv) as Hall.
      rewrite Forall_forall in Hall. now apply Hall. }
  eexists. unfold calculate_stats.
  rewrite (calculate_stats_value _ _ _ _ _ _ Ht Hs).
  cbn [bind option_map fst p95 p99 max].
  split; [reflexivity|]. split; intros Hlen.
  - apply (Hlast _ _ H95). rewrite floor_scale_eq.
    Z.to_euclidean_division_equations. lia.
  - apply (Hlast _ _ H99). rewrite floor_scale_eq.
    Z.to_euclidean_division_equations. lia.
Qed.

Lemma X2_small_sets_collapse_witness :
  [4000000; 1000000; 3000000] <> []
  /\ exists st,
       calculate_stats [4000000; 1000000; 3000000] = Ok (Some st)
       /\ p95 st == max st /\ p99 st == max st.
Proof.
  split; [discriminate|].
  destruct (X2_small_sets_collapse [4000000; 1000000; 3000000])
    as (st & H & H1 & H2); [discriminate|].
  exists st. split; [exact H|].
  split; [apply H1 | apply H2]; vm_compute; discriminate.
Defined.

(** * The standard deviation is well defined *)

Lemma Qsquare_nonneg (a : Q) : 0 <= a * a.
Proof. destruct a as [n d]. unfold Qle, Qmult. simpl. nia. Qed.

Lemma ss_nonneg (l : list Q) (c : Q) : 0 <= statistics.ss l c.
Proof.
  unfold statistics.ss, statistics.sum. induction l as [|x l IH]; simpl.
  - apply Qle_refl.
  - set (rest := fold_right Qplus 0 (map (fun y => (y - c) * (y - c)) l)) in *.
    pose proof (Qsquare_nonneg (x - c)) as H.
    set (sq := (x - c) * (x - c)) in *. lra.
Qed.

Lemma ss_zero (l : list Q) (c : Q) :
  Forall (fun x => x == c) l -> statistics.ss l c == 0.
Proof.
  unfold statistics.ss, statistics.sum.
  induction 1 as [|x l Hx _ IH]; simpl.
  - reflexivity.
  - rewrite IH, Hx. ring.
Qed.

Lemma stddev_of_nonneg (s : list Q) :
  0 <= statistics.radicand (stddev_of s).
Proof.
  unfold stddev_of. destruct (Py.len s >? 1)%Z eqn:E; simpl.
  - rewrite Z.gtb_ltb in E. apply Z.ltb_lt in E.
    apply Qle_shift_div_l.
    + change 0 with (inject_Z 0). rewrite <- Zlt_Qlt. lia.
    + rewrite Qmult_0_l. apply ss_nonneg.
  - apply Qle_refl.
Qed.

(** X5. The radicand of the reported standard deviation is never
    negative: the root is a real number for every sample list. *)
Theorem X5_variance_nonnegative (times : list Q) :
  times <> [] ->
  exists st,
    calculate_stats times = Ok (Some st)
    /\ 0 <= statistics.radicand (stddev st).
Proof.
  intros Ht. pose proof (times_ms_nonempty _ Ht) as Hne.
  destruct (summary_exists _ Hne) as (mn & mx & md & v95 & v99 & Hs).
  eexists. unfold calculate_stats.
  rewrite (calculate_stats_value _ _ _ _ _ _ Ht Hs). simpl.
  split; [reflexivity|]. apply stddev_of_nonneg.
Qed.

Lemma X5_variance_nonnegative_witness :
  [4000000; 1000000; 3000000] <> []
  /\ exists st,
       calculate_stats [4000000; 1000000; 3000000] = Ok (Some st)
       /\ 0 <= statistics.radicand (stddev st).
Proof.
  split; [discriminate|].
  apply (X5_variance_nonnegative [4000000; 1000000; 3000000]). discriminate.
Defined.

(** X4. For [n > 0] samples of one value [v] the summary has count [n],
    min, max, avg, median, p95 and p99 all equal to [v / 1000000], and a
    standard deviation of 0. *)
Theorem X4_constant_samples (v : Q) (n : nat) :
  (0 < n)%nat ->
  exists st,
    calculate_stats (repeat v n) = Ok (Some st)
    /\ count st = Z.of_nat n
    /\ min st == v / 1000000 /\ max st == v / 1000000
    /\ avg st == v / 1000000 /\ median st == v / 1000000
    /\ p95 st == v / 1000000 /\ p99 st == v / 1000000
    /\ statistics.radicand (stddev st) == 0.
Proof.
  intros Hn.
  assert (Ht : repeat v n <> []) by (destruct n; [lia | discriminate]).
  pose proof (times_ms_nonempty _ Ht) as Hne.
  set (s := times_ms_of (repeat v n)) in *.
  assert (Hall : forall x, In x s -> x = v / 1000000).
  { intros x Hx. apply (Permutation_in _ (sort_floats_perm _)) in Hx.
    unfold to_ms in Hx. apply in_map_iff in Hx. destruct Hx as (t & <- & Ht').
    apply repeat_spec in Ht'. now subst. }
  destruct (summary_exists _ Hne) as (mn & mx & md & v95 & v99 & Hs).
  pose proof Hs as (_ & _ & _ & _ & _ & (Hmn & _) & (Hmx & _) & (M1 & M2)
                    & (H95 & _) & (H99 & _)).
  apply Hall in Hmn, Hmx. apply nth_error_In, Hall in H95, H99. subst.
  assert (Hmd : md == v / 1000000) by (apply Qle_antisym; assumption).
  assert (Hbounds : Forall (fun x => v / 1000000 <= x /\ x <= v / 1000000) s).
  { apply Forall_forall. intros x Hx. rewrite (Hall x Hx). split; apply Qle_refl. }
  destruct (mean_between s _ _ Hne Hbounds) as [A1 A2].
  assert (Havg : statistics.sum s / inject_Z (Py.len s) == v / 1000000)
    by (apply Qle_antisym; assumption).
  eexists. unfold calculate_stats.
  rewrite (calculate_stats_value _ _ _ _ _ _ Ht Hs). simpl. fold s.
  split; [reflexivity|].
  split; [unfold Py.len; now rewrite repeat_length|].
  repeat (split; [reflexivity || assumption|]).
  unfold stddev_of. destruct (Py.len s >? 1)%Z; simpl; [|reflexivity].
  rewrite ss_zero.
  - unfold Qdiv. ring.
  - apply Forall_forall. intros x Hx. rewrite (Hall x Hx).
    symmetry. exact Havg.
Qed.

Lemma X4_constant_samples_witness :
  (0 < 3)%nat
  /\ exists st,
       calculate_stats (repeat 2000000 3) = Ok (Some st)
       /\ count st = 3%Z
       /\ min st == 2000000 / 1000000 /\ max st == 2000000 / 1000000
       /\ avg st == 2000000 / 1000000 /\ median st == 2000000 / 1000000
       /\ p95 st == 2000000 / 1000000 /\ p99 st == 2000000 / 1000000
       /\ statistics.radicand (stddev st) == 0.
Proof.
  split; [lia|]. apply (X4_constant_samples 2000000 3). lia.
Defined.

(** * The order of the samples does not matter *)

(** Two sorted lists with the same items are the same list, when equal
    numbers among the items are the same fraction. *)
Lemma sorted_perm_eq (a : list Q) :
  forall b : list Q,
    StronglySorted Qle a -> StronglySorted Qle b -> Permutation a b ->
    (forall x y, In x a -> In y a -> x == y -> x = y) ->
    a = b.
Proof.
  induction a as [|x a IH]; intros b Ha Hb Hp Hinj.
  - apply Permutation_nil in Hp. now subst.
  - destruct b as [|y b].
    + apply Permutation_sym, Permutation_nil in Hp. discriminate.
    + inversion Ha as [|? ? Ha' Hxa]; subst.
      inversion Hb as [|? ? Hb' Hyb]; subst.
      assert (Hy : In y (x :: a))
        by (apply (Permutation_in _ (Permutation_sym Hp)); now left).
      assert (Hx : In x (y :: b))
        by (apply (Permutation_in _ Hp); now left).
      assert (Hxy : x <= y).
      { destruct Hy as [-> | Hy]; [apply Qle_refl|].
        rewrite Forall_forall in Hxa. now apply Hxa. }
      assert (Hyx : y <= x).
      { destruct Hx as [-> | Hx]; [apply Qle_refl|].
        rewrite Forall_forall in Hyb. now apply Hyb. }
      assert (E : x = y).
      { apply Hinj; [now left | exact Hy | now apply Qle_antisym]. }
      subst y. f_equal. apply IH; try assumption.
      * now apply Permutation_cons_inv in Hp.
      * intros u w Hu Hw. apply Hinj; now right.
Qed.

Lemma ms_of_int_inj (a b : Z) :
  inject_Z a / 1000000 == inject_Z b / 1000000 ->
  inject_Z a / 1000000 = inject_Z b / 1000000.
Proof.
  intros H. assert (E : a = b); [|now subst].
  unfold Qeq in H. simpl in H. lia.
Qed.

(** X6. For samples in whole nanoseconds the result of [calculate_stats]
    does not depend on the order in which the samples were recorded. *)
Theorem X6_order_independent (l1 l2 : list Z) :
  Permutation l1 l2 ->
  calculate_stats (map inject_Z l1) = calculate_stats (map inject_Z l2).
Proof.
  intros Hp.
  assert (E : times_ms_of (map inject_Z l1) = times_ms_of (map inject_Z l2)).
  { apply sorted_perm_eq; try apply times_ms_sorted.
    - unfold times_ms_of.
      eapply perm_trans; [apply sort_floats_perm|].
      eapply perm_trans; [|apply Permutation_sym, sort_floats_perm].
      unfold to_ms. now apply Permutation_map, Permutation_map.
    - assert (Hform : forall x, In x (times_ms_of (map inject_Z l1)) ->
                exists t, x = inject_Z t / 1000000).
      { intros x Hx. apply (Permutation_in _ (sort_floats_perm _)) in Hx.
        unfold to_ms in Hx. rewrite map_map in Hx.
        apply in_map_iff in Hx. destruct Hx as (t & <- & _). now exists t. }
      intros x y Hx Hy Hxy.
      destruct (Hform x Hx) as (t & ->). destruct (Hform y Hy) as (u & ->).
      now apply ms_of_int_inj. }
  unfold calculate_stats, calculate_stats_core.
  destruct l1 as [|a l1], l2 as [|b l2].
  - reflexivity.
  - apply Permutation_nil in Hp. discriminate.
  - apply Permutation_sym, Permutation_nil in Hp. discriminate.
  - cbn [map]. cbn [map] in E. now rewrite E.
Qed.

Lemma X6_order_independent_witness :
  Permutation [3000000; 1000000; 2000000]%Z [1000000; 2000000; 3000000]%Z
  /\ calculate_stats (map inject_Z [3000000; 1000000; 2000000]%Z)
     = calculate_stats (map inject_Z [1000000; 2000000; 3000000]%Z).
Proof.
  assert (Hp : Permutation [3000000; 1000000; 2000000]%Z
                 [1000000; 2000000; 3000000]%Z).
  { eapply perm_trans; [apply perm_swap|]. apply perm_skip, perm_swap. }
  split; [exact Hp|]. exact (X6_order_independent _ _ Hp).
Defined.

(** * [calc_stats] run twice *)

Lemma update_twice (h : Heap.t) (a : nat) (l l' : list Q) :
  Heap.update (Heap.update h a l) a l' = Heap.update h a l'.
Proof.
  revert a. induction h as [|x h IH]; intros [|a]; simpl; try reflexivity.
  now rewrite IH.
Qed.

(** X7. A second call of [calc_stats] on the same list changes nothing
    more: it leaves the store as the first call left it and returns what
    the first call returned. *)
Theorem X7_calc_stats_twice (h : Heap.t) (times : nat) :
  (times < List.length h)%nat ->
  calc_stats_at (fst (calc_stats_at h times)) times = calc_stats_at h times.
Proof.
  intros Ha. unfold calc_stats_at. cbn [fst].
  assert (E : Heap.sort_at (Heap.sort_at h times) times
              = Heap.sort_at h times).
  { unfold Heap.sort_at at 1.
    assert (G : Heap.get (Heap.sort_at h times) times
                = Py.sort_floats (Heap.get h times)).
    { unfold Heap.sort_at. now apply get_update_same. }
    rewrite G, (sorted_floats_fixed _ (sort_floats_sorted _)).
    unfold Heap.sort_at. apply update_twice. }
  now rewrite E.
Qed.

Lemma X7_calc_stats_twice_witness :
  (0 < List.length [[3; 1; 2]])%nat
  /\ calc_stats_at (fst (calc_stats_at [[3; 1; 2]] 0)) 0
     = calc_stats_at [[3; 1; 2]] 0.
Proof.
  split; [simpl; lia|]. apply (X7_calc_stats_twice [[3; 1; 2]] 0).
  simpl. lia.
Defined.

(** * The Node.js script computes the same summary *)

Lemma js_get_some (l : list Q) (i : Z) (v : Q) :
  (0 <= i)%Z -> nth_error l (Z.to_nat i) = Some v -> Js.get l i = Js.Num v.
Proof.
  intros Hi Hv. unfold Js.get.
  destruct (i <? 0)%Z eqn:E; [apply Z.ltb_lt in E; lia|]. now rewrite Hv.
Qed.

Lemma getitem_nth (l : list Q) (i : Z) (v : Q) :
  (0 <= i < Py.len l)%Z -> Py.getitem l i = Ok v ->
  nth_error l (Z.to_nat i) = Some v.
Proof.
  intros Hi Hg. destruct (getitem_ok l i Hi) as (w & Hw & Hn).
  rewrite Hw in Hg. injection Hg as <-. exact Hn.
Qed.

Lemma floor_half (n : Z) : Qfloor (inject_Z n / 2) = (n / 2)%Z.
Proof. unfold Qdiv, Qmult, Qfloor. simpl. now rewrite Z.mul_1_r. Qed.

(** X17. On a non-empty list of timings the [calcStats] of the Node.js
    script returns numbers for min, max, median and p95, and they equal
    the ones [calc_stats] returns, whatever the rounding of the running
    sum; on an empty list it throws.  The two averages are not compared:
    the script rounds at every addition, [statistics.mean] once. *)
Theorem X17_node_script_agrees (fadd : Q -> Q -> Q) (times : list Q) :
  times <> [] ->
  Js.calcStats fadd [] = Raise TypeError
  /\ exists js py,
       Js.calcStats fadd times = Ok js
       /\ snd (calc_stats times) = Ok py
       /\ Js.is_num (Js.min js) (s_min py)
       /\ Js.is_num (Js.max js) (s_max py)
       /\ Js.is_num (Js.median js) (s_median py)
       /\ Js.is_num (Js.p95 js) (s_p95 py).
Proof.
  intros Ht. split; [reflexivity|].
  pose proof (sort_floats_nonempty _ Ht) as Hne.
  pose proof (sort_floats_sorted times) as Hsorted.
  destruct (summary_exists _ Hne) as (mn & mx & md & v95 & v99 & Hs).
  pose proof Hs as (Hmin & _ & Hmd & _ & _ & _ & (Hmx_in & Hmx) & _
                    & (H95 & _) & _).
  pose proof (calc_stats_value _ _ _ _ _ _ Ht Hs) as Hpy.
  unfold calc_stats, Js.calcStats. rewrite Hpy. cbn [fst snd bind].
  set (s := Py.sort_floats times) in *.
  pose proof (len_pos _ Hne) as Hn.
  destruct s as [|x r] eqn:Es; [congruence|]. rewrite <- Es in *.
  assert (Hred : Js.reduce_add fadd s = Ok (fold_left fadd r x))
    by (rewrite Es; reflexivity).
  rewrite Hred. cbn [bind].
  eexists. eexists.
  split; [reflexivity|]. split; [reflexivity|].
  cbn [Js.min Js.max Js.avg Js.median Js.p95
       s_min s_max s_avg s_median s_p95].
  (* min *)
  split.
  { rewrite Es in Hmin, Hsorted. rewrite (min_of_sorted x r Hsorted) in Hmin.
    injection Hmin as <-. rewrite Es. simpl. reflexivity. }
  (* max *)
  split.
  { destruct (getitem_ok s (Py.len s - 1)) as (last & _ & Hlast); [lia|].
    assert (H0 : (0 <= Py.len s - 1)%Z) by lia.
    rewrite (js_get_some _ _ _ H0 Hlast). simpl.
    apply Qle_antisym.
    - apply nth_error_In in Hlast. rewrite Forall_forall in Hmx.
      now apply Hmx.
    - pose proof (last_is_largest _ _ Hsorted Hlast) as Hl.
      rewrite Forall_forall in Hl. now apply Hl. }
  (* median *)
  split.
  { unfold statistics.median in Hmd.
    rewrite (sorted_floats_fixed s Hsorted) in Hmd.
    destruct (Py.len s =? 0)%Z eqn:E0; [apply Z.eqb_eq in E0; lia|].
    assert (Hh : (0 <= Py.len s / 2 < Py.len s)%Z).
    { split; [apply Z.div_pos; lia | apply Z.div_lt; lia]. }
    pose proof (Z.div_mod (Py.len s) 2 ltac:(lia)) as Hdm.
    pose proof (Z.mod_pos_bound (Py.len s) 2 ltac:(lia)) as Hmb.
    destruct (Py.len s mod 2 =? 1)%Z eqn:E1.
    - apply Z.eqb_eq in E1.
      destruct (Py.len s mod 2 =? 0)%Z eqn:E2;
        [apply Z.eqb_eq in E2; lia|].
      rewrite floor_half.
      rewrite (js_get_some _ _ _ (proj1 Hh) (getitem_nth _ _ _ Hh Hmd)).
      simpl. reflexivity.
    - apply Z.eqb_neq in E1.
      destruct (Py.len s mod 2 =? 0)%Z eqn:E2;
        [|apply Z.eqb_neq in E2; lia].
      assert (Hh' : (0 <= Py.len s / 2 - 1 < Py.len s)%Z) by lia.
      destruct (getitem_ok s _ Hh') as (a & Ha & Han).
      destruct (getitem_ok s _ Hh) as (b & Hb & Hbn).
      rewrite Ha, Hb in Hmd. simpl in Hmd. injection Hmd as <-.
      rewrite (js_get_some _ _ _ (proj1 Hh') Han).
      rewrite (js_get_some _ _ _ (proj1 Hh) Hbn).
      simpl. reflexivity. }
  (* p95 *)
  assert (H0 : (0 <= Qfloor (inject_Z (Py.len s) * (95 # 100)))%Z).
  { apply floor_scale_nonneg; [lia | discriminate]. }
  rewrite (js_get_some _ _ _ H0 H95). simpl. reflexivity.
Qed.

Lemma X17_node_script_agrees_witness :
  [3; 1; 2; 5] <> []
  /\ exists js py,
       Js.calcStats Qplus [3; 1; 2; 5] = Ok js
       /\ snd (calc_stats [3; 1; 2; 5]) = Ok py
       /\ Js.is_num (Js.median js) (s_median py)
       /\ Js.is_num (Js.p95 js) (s_p95 py).
Proof.
  split; [discriminate|].
  destruct (X17_node_script_agrees Qplus [3; 1; 2; 5])
    as (_ & js & py & H1 & H2 & _ & _ & H3 & H4); [discriminate|].
  exists js, py. tauto.
Defined.

(** * The benchmark loops *)

Lemma loop_samples_S (clock : nat -> Z) (k n : nat) :
  loop_samples clock k (S n)
  = (clock (S k) - clock k)%Z :: loop_samples clock (S (S k)) n.
Proof.
  unfold loop_samples. rewrite <- cons_seq. cbn [map].
  f_equal.
  - f_equal; f_equal; lia.
  - rewrite <- seq_shift, map_map. apply map_ext. intros j.
    f_equal; f_equal; lia.
Qed.

Lemma loop_samples_length (clock : nat -> Z) (k n : nat) :
  List.length (loop_samples clock k n) = n.
Proof. unfold loop_samples. now rewrite length_map, length_seq. Qed.

Lemma loop_samples_nonneg (clock : nat -> Z) (k n : nat) :
  monotonic clock -> Forall (fun t => (0 <= t)%Z) (loop_samples clock k n).
Proof.
  intros Hm. unfold loop_samples. apply Forall_forall. intros t Ht.
  apply in_map_iff in Ht. destruct Ht as (j & <- & _).
  pose proof (Hm (k + 2 * j)%nat (k + 2 * j + 1)%nat ltac:(lia)). lia.
Qed.

Lemma recorded_append_same (s : Scenario) (self : PythonBenchmark) (t : Z) :
  recorded s (append_sample s self t) = recorded s self ++ [t].
Proof. destruct s; reflexivity. Qed.

Lemma recorded_append_other (s : Scenario) (self : PythonBenchmark) (t : Z) :
  recorded (other s) (append_sample s self t) = recorded (other s) self.
Proof. destruct s; reflexivity. Qed.

Section LoopFacts.
Variable perf_counter_ns : nat -> Z.
Context {R : Type}.

Lemma measure_ok (r : R) (k : nat) :
  measure_time_ns perf_counter_ns (Ok r) k
  = (S (S k),
     Ok (mkMeasurement r (perf_counter_ns (S k) - perf_counter_ns k)%Z
           (inject_Z (perf_counter_ns (S k) - perf_counter_ns k) / 1000000))).
Proof. reflexivity. Qed.

Lemma loop_all_ok (s : Scenario) (test : nat -> Res R) (n : nat) :
  forall (i k : nat) (self : PythonBenchmark),
    (forall j, (j < n)%nat -> exists r, test (i + j)%nat = Ok r) ->
    exists self',
      benchmark_loop perf_counter_ns s test n i k self
      = (((k + 2 * n)%nat, self'), Ok tt)
      /\ recorded s self'
         = recorded s self ++ loop_samples perf_counter_ns k n
      /\ recorded (other s) self' = recorded (other s) self.
Proof.
  induction n as [|n IH]; intros i k self Hok.
  - exists self. cbn [benchmark_loop]. rewrite Nat.mul_0_r, Nat.add_0_r.
    split; [reflexivity|]. unfold loop_samples. cbn [seq map].
    now rewrite app_nil_r.
  - destruct (Hok 0%nat ltac:(lia)) as [r Hr]. rewrite Nat.add_0_r in Hr.
    cbn [benchmark_loop]. rewrite Hr, measure_ok. cbn [time_ns].
    destruct (IH (S i) (S (S k))
                (append_sample s self
                   (perf_counter_ns (S k) - perf_counter_ns k)%Z))
      as (self' & E & H1 & H2).
    { intros j Hj. destruct (Hok (S j) ltac:(lia)) as [r' Hr'].
      exists r'. rewrite <- Hr'. f_equal. lia. }
    exists self'. rewrite E.
    replace (k + 2 * S n)%nat with (S (S k) + 2 * n)%nat by lia.
    split; [reflexivity|].
    rewrite H1, H2, recorded_append_same, recorded_append_other.
    rewrite loop_samples_S, <- app_assoc. split; reflexivity.
Qed.

Lemma loop_raises (s : Scenario) (test : nat -> Res R) (e : PyError)
    (m : nat) :
  forall (n i k : nat) (self : PythonBenchmark),
    (m < n)%nat ->
    (forall j, (j < m)%nat -> exists r, test (i + j)%nat = Ok r) ->
    test (i + m)%nat = Raise e ->
    exists self',
      benchmark_loop perf_counter_ns s test n i k self
      = (((k + 2 * m + 1)%nat, self'), Raise e)
      /\ recorded s self'
         = recorded s self ++ loop_samples perf_counter_ns k m
      /\ recorded (other s) self' = recorded (other s) self.
Proof.
  induction m as [|m IH]; intros n i k self Hmn Hok He;
    (destruct n as [|n]; [lia|]).
  - rewrite Nat.add_0_r in He. exists self.
    cbn [benchmark_loop]. unfold measure_time_ns. rewrite He.
    replace (k + 2 * 0 + 1)%nat with (S k) by lia.
    split; [reflexivity|]. unfold loop_samples. cbn [seq map].
    now rewrite app_nil_r.
  - destruct (Hok 0%nat ltac:(lia)) as [r Hr]. rewrite Nat.add_0_r in Hr.
    cbn [benchmark_loop]. rewrite Hr, measure_ok. cbn [time_ns].
    destruct (IH n (S i) (S (S k))
                (append_sample s self
                   (perf_counter_ns (S k) - perf_counter_ns k)%Z))
      as (self' & E & H1 & H2).
    { lia. }
    { intros j Hj. destruct (Hok (S j) ltac:(lia)) as [r' Hr'].
      exists r'. rewrite <- Hr'. f_equal. lia. }
    { rewrite <- He. f_equal. lia. }
    exists self'. rewrite E.
    replace (k + 2 * S m + 1)%nat with (S (S k) + 2 * m + 1)%nat by lia.
    split; [reflexivity|].
    rewrite H1, H2, recorded_append_same, recorded_append_other.
    rewrite loop_samples_S, <- app_assoc. split; reflexivity.
Qed.
End LoopFacts.

(** X9. When no test raises, a benchmark loop of [n] iterations takes
    exactly [2 n] readings of the clock and appends [n] samples to its
    list, in the order of execution: sample [j] is the difference of the
    readings [k + 2 j + 1] and [k + 2 j].  The list of the other scenario
    is left as it was. *)
Theorem X9_loop_records_in_order (perf_counter_ns : nat -> Z) (R : Type)
    (s : Scenario) (test : nat -> Res R) (n i k : nat)
    (self : PythonBenchmark) :
  (forall j, (j < n)%nat -> exists r, test (i + j)%nat = Ok r) ->
  exists self',
    benchmark_loop perf_counter_ns s test n i k self
    = (((k + 2 * n)%nat, self'), Ok tt)
    /\ recorded s self' = recorded s self ++ loop_samples perf_counter_ns k n
    /\ recorded (other s) self' = recorded (other s) self.
Proof. apply loop_all_ok. Qed.

Lemma X9_loop_records_in_order_witness :
  (forall j, (j < 2)%nat -> exists r, (fun _ : nat => Ok tt) (0 + j)%nat = Ok r)
  /\ exists self',
       benchmark_loop sample_clock Startup (fun _ => Ok tt) 2 0 4
         (mkPythonBenchmark [7%Z] [9%Z])
       = ((8%nat, self'), Ok tt)
       /\ recorded Startup self' = [7; 1000; 1000]%Z
       /\ recorded Operations self' = [9%Z].
Proof.
  assert (H : forall j, (j < 2)%nat ->
                exists r, (fun _ : nat => Ok tt) (0 + j)%nat = Ok r)
    by (intros j _; now exists tt).
  split; [exact H|].
  destruct (X9_loop_records_in_order sample_clock unit Startup
              (fun _ => Ok tt) 2 0 4 (mkPythonBenchmark [7%Z] [9%Z]) H)
    as (self' & E & H1 & H2).
  exists self'. split; [exact E|]. split; [exact H1 | exact H2].
Defined.

(** X10. When the test of iteration [m] is the first to raise, the loop
    stops there with that exception: the [m] samples measured before are
    kept, the clock has been read [2 m + 1] times, and nothing is
    recorded for the failed iteration. *)
Theorem X10_loop_stops_at_first_raise (perf_counter_ns : nat -> Z) (R : Type)
    (s : Scenario) (test : nat -> Res R) (e : PyError) (m n i k : nat)
    (self : PythonBenchmark) :
  (m < n)%nat ->
  (forall j, (j < m)%nat -> exists r, test (i + j)%nat = Ok r) ->
  test (i + m)%nat = Raise e ->
  exists self',
    benchmark_loop perf_counter_ns s test n i k self
    = (((k + 2 * m + 1)%nat, self'), Raise e)
    /\ recorded s self' = recorded s self ++ loop_samples perf_counter_ns k m
    /\ recorded (other s) self' = recorded (other s) self.
Proof. apply loop_raises. Qed.

Lemma X10_loop_stops_at_first_raise_witness :
  (1 < 3)%nat
  /\ exists self',
       benchmark_loop sample_clock Operations
         (fun i => if Nat.eqb i 1 then Raise ValueError else Ok tt) 3 0 0
         PythonBenchmark_init
       = ((3%nat, self'), Raise ValueError)
       /\ recorded Operations self' = [1000%Z]
       /\ recorded Startup self' = [].
Proof.
  split; [lia|].
  destruct (X10_loop_stops_at_first_raise sample_clock unit Operations
              (fun i => if Nat.eqb i 1 then Raise ValueError else Ok tt)
              ValueError 1 3 0 0 PythonBenchmark_init)
    as (self' & E & H1 & H2).
  - lia.
  - intros j Hj. exists tt. assert (j = 0)%nat by lia. now subst.
  - reflexivity.
  - exists self'. split; [exact E|]. split; [exact H1 | exact H2].
Defined.

(** * [run_benchmark] *)

Lemma warmup_ok (warm : nat -> Res unit) (n : nat) :
  forall i, (forall j, (j < n)%nat -> warm (i + j)%nat = Ok tt) ->
            warmup_loop warm n i = Ok tt.
Proof.
  induction n as [|n IH]; intros i Hw; cbn [warmup_loop]; [reflexivity|].
  pose proof (Hw 0%nat ltac:(lia)) as H0. rewrite Nat.add_0_r in H0.
  rewrite H0. apply IH. intros j Hj.
  rewrite <- (Hw (S j) ltac:(lia)). f_equal. lia.
Qed.

(** The summary of samples in whole nanoseconds that are not negative. *)
Lemma calculate_stats_int_samples (l : list Z) :
  l <> [] -> Forall (fun t => (0 <= t)%Z) l ->
  exists st,
    calculate_stats (map inject_Z l) = Ok (Some st)
    /\ count st = Z.of_nat (List.length l)
    /\ 0 <= min st.
Proof.
  intros Hl Hpos.
  assert (Ht : map inject_Z l <> [])
    by (destruct l; [congruence | discriminate]).
  pose proof (times_ms_nonempty _ Ht) as Hne.
  destruct (summary_exists _ Hne) as (mn & mx & md & v95 & v99 & Hs).
  pose proof Hs as (_ & _ & _ & _ & _ & (Hmn & _) & _).
  eexists. unfold calculate_stats.
  rewrite (calculate_stats_value _ _ _ _ _ _ Ht Hs).
  cbn [bind option_map fst count min].
  split; [reflexivity|].
  split; [unfold Py.len; now rewrite length_map|].
  apply (Permutation_in _ (sort_floats_perm _)) in Hmn.
  unfold to_ms in Hmn. rewrite map_map in Hmn.
  apply in_map_iff in Hmn. destruct Hmn as (t & <- & Hin).
  rewrite Forall_forall in Hpos. specialize (Hpos t Hin).
  apply Qle_shift_div_l; [reflexivity|]. rewrite Qmult_0_l.
  change 0 with (inject_Z 0). now rewrite <- Zle_Qle.
Qed.

(** X11. With the binding available, a monotonic clock and no call
    raising, [run_benchmark] reads the clock 2100 times, records the 50
    startup samples and then the 1000 operation samples, and returns
    summaries with counts 50 and 1000 and non-negative minima, next to
    the file size 681. *)
Theorem X11_run_benchmark_completes (perf_counter_ns : nat -> Z) (R : Type)
    (warm : nat -> Res unit) (startup_test operation_test : nat -> Res R)
    (k : nat) :
  monotonic perf_counter_ns ->
  (forall i, (i < 5)%nat -> warm i = Ok tt) ->
  (forall i, (i < 50)%nat -> exists r, startup_test i = Ok r) ->
  (forall i, (i < 1000)%nat -> exists r, operation_test i = Ok r) ->
  exists self' startup_stats operations_stats,
    run_benchmark perf_counter_ns true warm startup_test operation_test
      k PythonBenchmark_init
    = (((k + 2100)%nat, self'),
       Ok (Some (mkPythonResults (Some startup_stats)
                   (Some operations_stats) 681)))
    /\ results_startup self' = loop_samples perf_counter_ns k 50
    /\ results_operations self'
       = loop_samples perf_counter_ns (k + 100) 1000
    /\ count startup_stats = 50%Z /\ count operations_stats = 1000%Z
    /\ 0 <= min startup_stats /\ 0 <= min operations_stats.
Proof.
  intros Hm Hw Hs Ho.
  destruct (loop_all_ok perf_counter_ns Startup startup_test 50 0 k
              PythonBenchmark_init Hs) as (self1 & E1 & A1 & A2).
  destruct (loop_all_ok perf_counter_ns Operations operation_test 1000 0
              (k + 2 * 50) self1 Ho) as (self2 & E2 & B1 & B2).
  cbn [recorded other PythonBenchmark_init results_startup
       results_operations app] in A1, A2, B1, B2.
  assert (S2 : results_startup self2 = loop_samples perf_counter_ns k 50)
    by congruence.
  assert (O2 : results_operations self2
               = loop_samples perf_counter_ns (k + 100) 1000).
  { rewrite B1, A2. cbn [app]. f_equal. }
  assert (N1 : loop_samples perf_counter_ns k 50 <> []).
  { intro E. apply (f_equal (@List.length Z)) in E.
    rewrite loop_samples_length in E. discriminate. }
  assert (N2 : loop_samples perf_counter_ns (k + 100) 1000 <> []).
  { intro E. apply (f_equal (@List.length Z)) in E.
    rewrite loop_samples_length in E. discriminate. }
  destruct (calculate_stats_int_samples _ N1
              (loop_samples_nonneg _ k 50 Hm)) as (ss & Hss & Cs & Ms).
  destruct (calculate_stats_int_samples _ N2
              (loop_samples_nonneg _ (k + 100) 1000 Hm))
    as (os & Hos & Co & Mo).
  exists self2, ss, os.
  unfold run_benchmark. cbn [negb].
  rewrite (warmup_ok warm 5 0 Hw).
  unfold benchmark_python_startup, benchmark_python_operations.
  rewrite E1. cbv beta iota. rewrite E2. cbv beta iota.
  rewrite S2, O2, Hss, Hos. cbn [bind].
  replace (k + 2 * 50 + 2 * 1000)%nat with (k + 2100)%nat by lia.
  split; [reflexivity|].
  split; [reflexivity|]. split; [reflexivity|].
  rewrite loop_samples_length in Cs, Co.
  split; [exact Cs|]. split; [exact Co|]. split; assumption.
Qed.

Lemma sample_clock_monotonic : monotonic sample_clock.
Proof. unfold monotonic, sample_clock. intros i j Hij. lia. Qed.

Lemma X11_run_benchmark_completes_witness :
  monotonic sample_clock
  /\ exists self' startup_stats operations_stats,
       run_benchmark sample_clock true (fun _ => Ok tt)
         (fun _ => Ok tt) (fun _ => Ok tt) 0 PythonBenchmark_init
       = ((2100%nat, self'),
          Ok (Some (mkPythonResults (Some startup_stats)
                      (Some operations_stats) 681)))
       /\ count startup_stats = 50%Z /\ count operations_stats = 1000%Z
       /\ 0 <= min startup_stats /\ 0 <= min operations_stats.
Proof.
  split; [exact sample_clock_monotonic|].
  destruct (X11_run_benchmark_completes sample_clock unit (fun _ => Ok tt)
              (fun _ => Ok tt) (fun _ => Ok tt) 0 sample_clock_monotonic)
    as (self' & ss & os & E & _ & _ & H);
    [reflexivity | intros; now exists tt | intros; now exists tt |].
  exists self', ss, os. split; [exact E | exact H].
Defined.

(** * The column "Fastest" and the ratios *)

(** X12. The name printed as fastest belongs to an adapter with the
    smallest of the three values; of several that are smallest Python
    comes before NAPI, and NAPI before WASI. *)
Theorem X12_fastest_name (python napi wasi : Q) :
  (fastest_name python napi wasi = "Python"%string
   /\ python <= napi /\ python <= wasi)
  \/ (fastest_name python napi wasi = "NAPI"%string
      /\ napi < python /\ napi <= wasi)
  \/ (fastest_name python napi wasi = "WASI"%string
      /\ wasi < python /\ wasi < napi).
Proof.
  unfold fastest_name.
  destruct (min3_spec python napi wasi) as (Hin & H1 & H2 & H3).
  set (m := Py.min3 python napi wasi) in *.
  destruct (Qeq_bool m python) eqn:E1.
  - apply Qeq_bool_iff in E1. left. split; [reflexivity|]. split; lra.
  - apply Qeq_bool_neq in E1.
    assert (Hlt : m < python).
    { destruct (Qle_lt_or_eq _ _ H1); [assumption | contradiction]. }
    destruct (Qeq_bool m napi) eqn:E2.
    + apply Qeq_bool_iff in E2. right; left.
      split; [reflexivity|]. split; lra.
    + apply Qeq_bool_neq in E2.
      assert (Hlt' : m < napi).
      { destruct (Qle_lt_or_eq _ _ H2); [assumption | contradiction]. }
      right; right. split; [reflexivity|].
      destruct Hin as [E | [E | E]].
      * exfalso. apply E1. now rewrite E.
      * exfalso. apply E2. now rewrite E.
      * rewrite <- E. split; assumption.
Qed.

(** X13. The ratios raise [ZeroDivisionError] exactly when the smallest
    of the three means is 0; otherwise each ratio is the mean divided by
    the smallest mean. *)
Theorem X13_ratios_raise_iff_zero (python napi wasi : Q) :
  (Py.min3 python napi wasi == 0
   /\ ratios python napi wasi = Raise ZeroDivisionError)
  \/ (~ Py.min3 python napi wasi == 0
      /\ ratios python napi wasi
         = Ok (python / Py.min3 python napi wasi,
               napi / Py.min3 python napi wasi,
               wasi / Py.min3 python napi wasi)).
Proof.
  unfold ratios, Py.truediv.
  destruct (Qeq_bool (Py.min3 python napi wasi) 0) eqn:E.
  - left. apply Qeq_bool_iff in E. split; [exact E | reflexivity].
  - right. apply Qeq_bool_neq in E. split; [exact E | reflexivity].
Qed.

(** * The report: both results present, and the two ways it aborts *)

Open Scope string_scope.

Lemma ratios_value (python napi wasi : Q) :
  0 < python -> 0 < napi -> 0 < wasi ->
  ratios python napi wasi
  = Ok (python / Py.min3 python napi wasi,
        napi / Py.min3 python napi wasi,
        wasi / Py.min3 python napi wasi).
Proof.
  intros Hp Hn Hw.
  destruct (min3_spec python napi wasi) as (Hin & _).
  assert (Hm : 0 < Py.min3 python napi wasi)
    by (destruct Hin as [-> | [-> | ->]]; assumption).
  unfold ratios. now rewrite !truediv_pos by exact Hm.
Qed.

(** X18. With both results present, both summaries present and positive
    means, [main] runs to its end and the report shows exactly seven
    lines of timings: the three startup rows, the two operation rows and
    the two lines of ratios, with the values of the two dictionaries and
    the constants of the WASI column. *)
Theorem X18_report_with_both_results (st_s st_o : Stats)
    (n_s n_o : NodeStats) (size kb : Z) :
  0 < avg st_s -> 0 < n_avg n_s -> 0 < avg st_o -> 0 < n_avg n_o ->
  exists out,
    main true (Some (mkPythonResults (Some st_s) (Some st_o) size))
      (Some (NapiData n_s n_o kb)) = (out, Ok tt)
    /\ filter shows_timings out
       = [Row "startup" "Average" (avg st_s) (n_avg n_s) wasi_startup_avg
            (fastest_name (avg st_s) (n_avg n_s) wasi_startup_avg);
          Row "startup" "Median" (median st_s) (n_median n_s) (1059 # 1000)
            (fastest_name (median st_s) (n_median n_s) (1059 # 1000));
          Row "startup" "95th percentile" (p95 st_s) (n_p95 n_s)
            (1996 # 1000)
            (fastest_name (p95 st_s) (n_p95 n_s) (1996 # 1000));
          Row "operations" "Average" (avg st_o) (n_avg n_o) wasi_ops_avg
            (fastest_name (avg st_o) (n_avg n_o) wasi_ops_avg);
          Row "operations" "Median" (median st_o) (n_median n_o)
            (230 # 1000)
            (fastest_name (median st_o) (n_median n_o) (230 # 1000));
          Ratios "startup"
            (avg st_s / Py.min3 (avg st_s) (n_avg n_s) wasi_startup_avg)
            (n_avg n_s / Py.min3 (avg st_s) (n_avg n_s) wasi_startup_avg)
            (wasi_startup_avg
             / Py.min3 (avg st_s) (n_avg n_s) wasi_startup_avg);
          Ratios "operations"
            (avg st_o / Py.min3 (avg st_o) (n_avg n_o) wasi_ops_avg)
            (n_avg n_o / Py.min3 (avg st_o) (n_avg n_o) wasi_ops_avg)
            (wasi_ops_avg / Py.min3 (avg st_o) (n_avg n_o) wasi_ops_avg)]
    /\ In (FileSize "Python (.so)" (Some size)) out
    /\ In (FileSize "NAPI (.node)" (Some kb)) out.
Proof.
  intros H1 H2 H3 H4.
  pose proof (ratios_value (avg st_s) (n_avg n_s) wasi_startup_avg
                H1 H2 eq_refl) as Hrs.
  pose proof (ratios_value (avg st_o) (n_avg n_o) wasi_ops_avg
                H3 H4 eq_refl) as Hro.
  unfold main, print_comprehensive_results, print_comparison.
  cbn [py_startup py_operations node_startup node_operations field lift
       bindO say python_size node_size node_file_size_kb bind
       py_file_size_kb app].
  rewrite Hrs. cbn [bindO say lift app fst snd].
  rewrite Hro. cbn [bindO say lift app fst snd].
  eexists. split; [reflexivity|].
  split; [reflexivity|]. cbn [In]. tauto.
Qed.

Lemma X18_report_with_both_results_witness :
  let st := mkStats 3 1 3 2 2 3 3 (statistics.Sqrt 1) in
  0 < avg st /\ 0 < n_avg sample_node_stats
  /\ exists out,
       main true (Some (mkPythonResults (Some st) (Some st) 681))
         (Some (NapiData sample_node_stats sample_node_stats 607))
       = (out, Ok tt)
       /\ List.length (filter shows_timings out) = 7%nat.
Proof.
  cbv zeta. split; [reflexivity|]. split; [reflexivity|].
  destruct (X18_report_with_both_results
              (mkStats 3 1 3 2 2 3 3 (statistics.Sqrt 1))
              (mkStats 3 1 3 2 2 3 3 (statistics.Sqrt 1))
              sample_node_stats sample_node_stats 681 607)
    as (out & E & F & _); try reflexivity.
  exists out. split; [exact E|]. rewrite F. reflexivity.
Defined.

(** X14. When the Node.js script reports that the addon did not load
    (an error dictionary), [main] aborts with [KeyError] while printing
    the file sizes: the report ends after the Python file size, whatever
    the Python results are. *)
Theorem X14_error_dictionary_aborts (PYTHON_AVAILABLE : bool)
    (run_benchmark : option PythonResults) (message : string) :
  main PYTHON_AVAILABLE run_benchmark (Some (NapiError message))
  = ([Text "SuperConfig FFI Comprehensive Performance Benchmark";
      Text "COMPREHENSIVE PERFORMANCE COMPARISON";
      Text "FILE SIZES";
      FileSize "Python (.so)"
        (option_map py_file_size_kb
           (if PYTHON_AVAILABLE then run_benchmark else None))],
     Raise KeyError).
Proof. destruct PYTHON_AVAILABLE, run_benchmark; reflexivity. Qed.

(** X15. [print_comprehensive_results] does not guard a summary that is
    [None]: with both results present and no startup summary it raises
    [TypeError] right after the startup heading, and no line of timings
    is printed. *)
Theorem X15_missing_summary_aborts (operations : option Stats)
    (size kb : Z) (n_s n_o : NodeStats) :
  print_comprehensive_results
    (Some (mkPythonResults None operations size))
    (Some (NapiData n_s n_o kb))
  = ([Text "COMPREHENSIVE PERFORMANCE COMPARISON";
      Text "FILE SIZES";
      FileSize "Python (.so)" (Some size);
      FileSize "NAPI (.node)" (Some kb);
      FileSize "WASI (.wasm)" (Some 50%Z);
      Text "STARTUP PERFORMANCE (ms)"],
     Raise TypeError).
Proof. reflexivity. Qed.

(** * The place of Python in the ranking *)

(** X16. In the ranking of the simple benchmark Python is first when its
    mean is below the NAPI constant 0.001206, third when it is above the
    WASI constant 0.396, and second otherwise, ties included. *)
Theorem X16_place_of_python (operation_avg : Q) :
  place "Python" (ranking operation_avg)
  = Some (if Py.ltb operation_avg napi_avg_ops then 1%nat
          else if Py.ltb wasi_avg_ops operation_avg then 3%nat
          else 2%nat).
Proof.
  pose proof napi_lt_wasi as HNW.
  assert (EWN : Py.ltb wasi_avg_ops napi_avg_ops = false).
  { apply ltb_false. apply Qlt_le_weak, HNW. }
  unfold ranking, results_list, Py.sort.
  cbn [fold_right Py.insert snd].
  destruct (Py.ltb wasi_avg_ops operation_avg) eqn:E1;
    cbn [fold_right Py.insert snd].
  - rewrite EWN.
    assert (E2 : Py.ltb operation_avg napi_avg_ops = false).
    { apply ltb_false. apply ltb_true in E1. lra. }
    rewrite E2. reflexivity.
  - destruct (Py.ltb operation_avg napi_avg_ops) eqn:E2;
      cbn [fold_right Py.insert snd].
    + rewrite EWN. reflexivity.
    + reflexivity.
Qed.

Close Scope string_scope.

(** * The simple benchmark *)






Lemma loop_times_S (clock : nat -> Q) (k n : nat) :
  loop_times clock k (S n)
  = (clock (S k) - clock k) * 1000 :: loop_times clock (S (S k)) n.
Proof.
  unfold loop_times. rewrite <- cons_seq. cbn [map].
  f_equal.
  - f_equal; f_equal; f_equal; lia.
  - rewrite <- seq_shift, map_map. apply map_ext. intros j.
    f_equal; f_equal; f_equal; lia.
Qed.

Lemma loop_times_length (clock : nat -> Q) (k n : nat) :
  List.length (loop_times clock k n) = n.
Proof. unfold loop_times. now rewrite length_map, length_seq. Qed.

Lemma loop_times_pos (clock : nat -> Q) (k n : nat) :
  increasing clock -> Forall (fun t => 0 < t) (loop_times clock k n).
Proof.
  intros Hm. unfold loop_times. apply Forall_forall. intros t Ht.
  apply in_map_iff in Ht. destruct Ht as (j & <- & _).
  pose proof (Hm (k + 2 * j)%nat (k + 2 * j + 1)%nat ltac:(lia)). lra.
Qed.

Lemma timing_all_ok (clock : nat -> Q) (test : nat -> Res unit) (n : nat) :
  forall (i k : nat) (times : list Q),
    (forall j, (j < n)%nat -> test (i + j)%nat = Ok tt) ->
    timing_loop clock test n i k times
    = (((k + 2 * n)%nat, times ++ loop_times clock k n), Ok tt).
Proof.
  induction n as [|n IH]; intros i k times Hok.
  - cbn [timing_loop]. rewrite Nat.mul_0_r, Nat.add_0_r.
    unfold loop_times. cbn [seq map]. now rewrite app_nil_r.
  - pose proof (Hok 0%nat ltac:(lia)) as Hr. rewrite Nat.add_0_r in Hr.
    cbn [timing_loop]. unfold measure_time_ms. rewrite Hr.
    rewrite IH.
    + rewrite loop_times_S, <- app_assoc.
      replace (k + 2 * S n)%nat with (S (S k) + 2 * n)%nat by lia.
      reflexivity.
    + intros j Hj. rewrite <- (Hok (S j) ltac:(lia)). f_equal. lia.
Qed.

(** The summary of a non-empty list of positive timings. *)
Lemma calc_stats_positive (times : list Q) :
  times <> [] -> Forall (fun t => 0 < t) times ->
  exists st,
    calc_stats times = (Py.sort_floats times, Ok st)
    /\ 0 < s_min st /\ 0 < s_avg st.
Proof.
  intros Ht Hpos. pose proof (sort_floats_nonempty _ Ht) as Hne.
  destruct (summary_exists _ Hne) as (mn & mx & md & v95 & v99 & Hs).
  pose proof Hs as (_ & _ & _ & _ & _ & (Hmn_in & Hmn) & (_ & Hmx) & _).
  assert (Hm : 0 < mn).
  { apply (Permutation_in _ (sort_floats_perm _)) in Hmn_in.
    rewrite Forall_forall in Hpos. now apply Hpos. }
  eexists. unfold calc_stats.
  rewrite (calc_stats_value _ _ _ _ _ _ Ht Hs). cbn [fst snd bind].
  split; [reflexivity|]. cbn [s_min s_avg]. split; [exact Hm|].
  assert (Hb : Forall (fun x => mn <= x /\ x <= mx)
                 (Py.sort_floats times)).
  { rewrite Forall_forall in *. intros x Hx. split; auto. }
  destruct (mean_between _ _ _ Hne Hb) as [A _]. lra.
Qed.

(** X8. With a clock that increases and no call raising,
    [benchmark_python] runs to its end: it reads the clock 2200 times,
    leaves the 100 startup timings and the 1000 operation timings sorted,
    and both summaries have a positive minimum, so the ranking and the
    two speed factors are computed without a division by zero. *)
Theorem X8_simple_benchmark_completes (perf_counter : nat -> Q)
    (create get_verbosity : nat -> Res unit) (k : nat) :
  increasing perf_counter ->
  (forall i, (i < 100)%nat -> create i = Ok tt) ->
  (forall i, (i < 1000)%nat -> get_verbosity i = Ok tt) ->
  exists report,
    benchmark_python perf_counter create get_verbosity k
    = (((k + 2200)%nat,
        (Py.sort_floats (loop_times perf_counter k 100),
         Py.sort_floats (loop_times perf_counter (k + 200) 1000))),
       Ok report)
    /\ 0 < s_min (startup_stats report)
    /\ 0 < s_min (operation_stats report)
    /\ results report = ranking (s_avg (operation_stats report))
    /\ speed report
       = (s_avg (operation_stats report) / napi_avg_ops,
          wasi_avg_ops / s_avg (operation_stats report)).
Proof.
  intros Hm Hc Hg.
  assert (N1 : loop_times perf_counter k 100 <> []).
  { intro E. apply (f_equal (@List.length Q)) in E.
    rewrite loop_times_length in E. discriminate. }
  assert (N2 : loop_times perf_counter (k + 200) 1000 <> []).
  { intro E. apply (f_equal (@List.length Q)) in E.
    rewrite loop_times_length in E. discriminate. }
  destruct (calc_stats_positive _ N1 (loop_times_pos _ k 100 Hm))
    as (ss & Ess & Ms & _).
  destruct (calc_stats_positive _ N2 (loop_times_pos _ (k + 200) 1000 Hm))
    as (os & Eos & Mo & Ao).
  exists (mkSimpleReport ss os (ranking (s_avg os))
            (s_avg os / napi_avg_ops, wasi_avg_ops / s_avg os)).
  unfold benchmark_python.
  rewrite (timing_all_ok perf_counter create 100 0 k [] Hc).
  cbv beta iota. cbn [app].
  rewrite (timing_all_ok perf_counter get_verbosity 1000 0 _ [] Hg).
  cbv beta iota. cbn [app].
  replace (k + 2 * 100)%nat with (k + 200)%nat by lia.
  rewrite Ess. cbv beta iota zeta. cbn [fst snd]. rewrite Eos.
  cbn [fst snd bind].
  unfold speed_vs_python.
  rewrite (truediv_pos (s_avg os) napi_avg_ops eq_refl).
  rewrite (truediv_pos wasi_avg_ops (s_avg os) Ao). cbn [bind].
  replace (k + 200 + 2 * 1000)%nat with (k + 2200)%nat by lia.
  split; [reflexivity|]. cbn [startup_stats operation_stats results speed].
  repeat split; assumption.
Qed.

Lemma sample_clock_s_increasing : increasing sample_clock_s.
Proof.
  unfold increasing, sample_clock_s. intros i j Hij.
  apply Qlt_shift_div_l; [reflexivity|].
  assert (E : inject_Z (Z.of_nat i) / 1000 * 1000 == inject_Z (Z.of_nat i))
    by (field; discriminate).
  rewrite E. rewrite <- Zlt_Qlt. lia.
Qed.

Lemma X8_simple_benchmark_completes_witness :
  increasing sample_clock_s
  /\ exists report,
       fst (fst (benchmark_python sample_clock_s (fun _ => Ok tt)
                   (fun _ => Ok tt) 0)) = 2200%nat
       /\ snd (benchmark_python sample_clock_s (fun _ => Ok tt)
                 (fun _ => Ok tt) 0) = Ok report
       /\ 0 < s_min (operation_stats report).
Proof.
  split; [exact sample_clock_s_increasing|].
  destruct (X8_simple_benchmark_completes sample_clock_s (fun _ => Ok tt)
              (fun _ => Ok tt) 0 sample_clock_s_increasing)
    as (report & E & _ & H & _); [reflexivity | reflexivity |].
  exists report. rewrite E. split; [reflexivity|]. split; [reflexivity|].
  exact H.
Defined.
